(** * Workload store customization (pkg/api/store/workload/workload_store.go)

    A shallow embedding of the request-time normalization passes that
    [CustomizeStore] runs on a workload document before it delegates to the
    wrapped store: port naming and validation ([setPorts]), DNS-name
    generation ([generateDNSName]), node pinning ([setScheduling]), the
    rollout-strategy clean-up ([setStrategy]), selector and default
    assignment, image-pull secrets, and the three store entry points
    [Create], [Update] and [ByID].

    Conventions.
    - A workload document is Go's [map[string]interface{}]; it is embedded
      as a [gmap string value] over a tagged value tree.  Go maps and slices
      are reference types and the passes mutate the document in place; the
      embedding threads the document explicitly, every pass returning the
      document as it stands afterwards.  Documents are trees (decoded JSON):
      no map object occurs twice in one document.
    - Strings are byte strings; case conversion is the ASCII one.
    - A run-time panic (index out of range) is an explicit outcome. *)

From Stdlib Require Import ZArith NArith String Ascii List Lia.
From stdpp Require Import gmap strings list fin_maps.

Open Scope string_scope.
Open Scope Z_scope.
Open Scope list_scope.

Set Warnings "-register-all".

(** ** The Go standard library functions the file calls *)

Module GoStrings.

(** [unicode.ToLower] on one ASCII byte. *)
Definition lowerByte (c : ascii) : ascii :=
  let n := N_of_ascii c in
  if ((65 <=? n) && (n <=? 90))%N then ascii_of_N (n + 32) else c.

(** [strings.ToLower]. *)
Fixpoint ToLower (s : string) : string :=
  match s with
  | EmptyString => EmptyString
  | String c rest => String (lowerByte c) (ToLower rest)
  end.

(** [strings.EqualFold]: equality under ASCII case folding. *)
Definition EqualFold (s t : string) : bool :=
  String.eqb (ToLower s) (ToLower t).

(** [strings.HasPrefix s prefix]. *)
Definition HasPrefix (s prefix : string) : bool := String.prefix prefix s.

(** [strings.Count s sep] for a one-byte separator. *)
Fixpoint Count (s : string) (sep : ascii) : nat :=
  match s with
  | EmptyString => O
  | String c rest =>
      if Ascii.eqb c sep then S (Count rest sep) else Count rest sep
  end.

(** [strings.Split s sep] for a one-byte separator: the pieces between
    the separators, so that a string with [n] separators gives [n + 1]
    pieces and the empty string gives one empty piece. *)
Fixpoint Split (s : string) (sep : ascii) : list string :=
  match s with
  | EmptyString => [EmptyString]
  | String c rest =>
      if Ascii.eqb c sep then EmptyString :: Split rest sep
      else match Split rest sep with
           | [] => [String c EmptyString]
           | piece :: pieces => String c piece :: pieces
           end
  end.

Definition digitByte (d : N) : ascii := ascii_of_N (48 + d).

(** The digit loop of [strconv.FormatInt] in base 10: digits are produced
    from the least significant one and written in front of [acc]. *)
Fixpoint formatBits (fuel : nat) (u : N) (acc : string) : string :=
  match fuel with
  | O => acc
  | S fuel' =>
      let acc' := String (digitByte (u mod 10)%N) acc in
      if (u <? 10)%N then acc' else formatBits fuel' (u / 10)%N acc'
  end.

Definition formatUint (u : N) : string :=
  formatBits (S (N.to_nat (N.log2 u))) u EmptyString.

(** [strconv.Itoa]. *)
Definition Itoa (i : Z) : string :=
  match i with
  | Z0 => "0"
  | Zpos p => formatUint (Npos p)
  | Zneg p => String "-" (formatUint (Npos p))
  end.

Definition digitValue (c : ascii) : option N :=
  let n := N_of_ascii c in
  if ((48 <=? n) && (n <=? 57))%N then Some (n - 48)%N else None.

(** The digit loop of [strconv.ParseUint] in base 10, without the
    overflow clamp (applied by [ParseInt] below). *)
Fixpoint parseDigits (s : string) (acc : N) : option N :=
  match s with
  | EmptyString => Some acc
  | String c rest =>
      match digitValue c with
      | None => None
      | Some d => parseDigits rest (10 * acc + d)%N
      end
  end.

Definition parseUint (s : string) : option N :=
  match s with
  | EmptyString => None
  | _ => parseDigits s 0%N
  end.

Definition maxInt64 : Z := 9223372036854775807.
Definition minInt64 : Z := -9223372036854775808.

(** [strconv.ParseInt s 10 64]: the value and whether an error is
    returned.  A syntax error returns 0, a range error the nearest
    bound. *)
Definition ParseInt (s : string) : Z * bool :=
  match s with
  | EmptyString => (0, true)
  | String c rest =>
      let neg := Ascii.eqb c "-" in
      let body := if Ascii.eqb c "+" || neg then rest else s in
      match parseUint body with
      | None => (0, true)
      | Some un =>
          let u := Z.of_N un in
          if negb neg && (maxInt64 <? u) then (maxInt64, true)
          else if neg && (- minInt64 <? u) then (minInt64, true)
          else (if neg then - u else u, false)
      end
  end.

End GoStrings.

Import GoStrings.

(** ** Documents *)

(** The dynamic values a document holds.  [VNum] is an integral number as
    the API layer stores it ([int64] or [json.Number]); [VSecrets] is the
    typed slice [[]corev1.LocalObjectReference] that [setSecrets] stores,
    each reference given by its [Name].  The nil interface value is the
    absence of a value ([None]). *)
Inductive value : Type :=
  | VStr (s : string)
  | VNum (n : Z)
  | VBool (b : bool)
  | VList (l : list value)
  | VMap (m : gmap string value)
  | VSecrets (refs : list string).

(** [httperror.ErrorCode] and [httperror.APIError]. *)
Record ErrorCode : Type := { code : string; Status : Z }.

Definition InvalidOption : ErrorCode :=
  {| code := "InvalidOption"; Status := 422 |}.

Record APIError : Type := { Code : ErrorCode; Message : string }.

Definition NewAPIError (c : ErrorCode) (msg : string) : APIError :=
  {| Code := c; Message := msg |}.

(** What a call leaves behind: a normal return or a run-time panic. *)
Inductive outcome (A : Type) : Type :=
  | Returned (a : A)
  | Panicked.
Arguments Returned {A} a.
Arguments Panicked {A}.

(** ** Collaborators

    Everything the file reaches outside of itself and of the norman
    [convert]/[values] helpers: Go's rendering of composite values, the
    helpers of the package that live in other files, the resource lookups
    and the JSON codec of the scheduling state. *)
Class Collaborators : Type := {
  (** [fmt.Sprint] of a slice or a map. *)
  sprintComposite : value -> string;
  (** The [SelectorLabel] constant. *)
  SelectorLabel : string;
  (** [resolveWorkloadID schemaID data]. *)
  resolveWorkloadID : string -> gmap string value -> string;
  (** [getKey]. *)
  getKey : string -> string;
  (** [access.ByID] on the node type: the node's [NodeName], or [None] when
      the lookup returns an error. *)
  nodeByID : string -> option string;
  (** The [Registries] field of a credential. *)
  Registries : Type;
  (** [access.List] of the namespaced credentials, as
      (namespaceId, registries, name); [None] when it returns an error. *)
  listNamespacedDockerCredentials : option (list (string * Registries * string));
  (** [access.List] of the cluster-wide credentials, as (registries, name). *)
  listDockerCredentials : option (list (Registries * string));
  (** [store registries domainToCreds name]. *)
  storeRegistries :
    Registries -> gmap string (list string) -> string -> gmap string (list string);
  (** [reference.ParseNormalizedNamed] followed by [reference.Domain]. *)
  parseDomain : string -> option string;
  (** [json.Marshal] of the state map; [None] when it returns an error. *)
  jsonMarshal : gmap string string -> option string;
  (** [json.Unmarshal] into an empty state map: what the map holds
      afterwards (whatever was decoded before a failure). *)
  jsonUnmarshal : string -> gmap string string
}.

(** The wrapped [types.Store], over a storage state [S]. *)
Class Store (S : Type) : Type := {
  store_Create : string -> gmap string value -> S ->
                 (gmap string value + APIError) * S;
  store_Update : string -> gmap string value -> string -> S ->
                 (gmap string value + APIError) * S;
  store_ByID : string -> string -> S -> (gmap string value + APIError) * S
}.

(** ** The norman helpers ([types/convert] and [types/values]) *)

Module convert.
Section convert.
Context `{Collaborators}.

(** [convert.Singular]: the head of a slice, nil for an empty one. *)
Definition Singular (v : option value) : option value :=
match v with
| Some (VList []) => None
| Some (VList (first :: _)) => Some first
| _ => v
end.

(** [fmt.Sprint] of one value. *)
Definition Sprint (v : value) : string :=
match v with
| VStr s => s
| VNum n => Itoa n
| VBool true => "true"
| VBool false => "false"
| _ => sprintComposite v
end.

(** The verb [%v] of [fmt.Sprintf] on an interface value. *)
Definition fmtV (v : option value) : string :=
match v with
| None => "<nil>"
| Some v => Sprint v
end.

(** [convert.ToString]. *)
Definition ToString (v : option value) : string :=
match Singular v with
| None => ""
| Some single => Sprint single
end.

(** [convert.IsEmpty]: nil, the empty string, [false], an empty map or an
empty slice.  (The comparison with the untyped constant 0 holds for
Go's [int] only, which no stored number is.) *)
Definition IsEmpty (v : option value) : bool :=
match v with
| None => true
| Some (VStr s) => String.eqb s ""
| Some (VBool b) => negb b
| Some (VMap m) => match map_to_list m with [] => true | _ => false end
| Some (VList l) => match l with [] => true | _ => false end
| Some (VNum _) => false
| Some (VSecrets _) => false
end.

(** [convert.ToNumber]: the number and whether an error is returned. *)
Definition ToNumber (v : option value) : Z * bool :=
match Singular v with
| Some (VNum n) => (n, false)
| single => ParseInt (ToString single)
end.

(** [convert.EncodeToMap]: a map is returned as it is (the same object);
a string, a number, a boolean or a slice does not decode into a map
and gives an error ([None]). *)
Definition EncodeToMap (v : value) : option (gmap string value) :=
match v with
| VMap m => Some m
| _ => None
end.

(** [convert.ToInterfaceSlice]: nil for anything that is not a slice. *)
Definition ToInterfaceSlice (v : option value) : list value :=
match v with
| Some (VList l) => l
| _ => []
end.

(** [convert.ToMapInterface]: nil ([None]) for anything but a map. *)
Definition ToMapInterface (v : option value) : option (gmap string value) :=
match v with
| Some (VMap m) => Some m
| _ => None
end.

(** [convert.ToMapSlice]: the maps of a slice, nil as soon as one element
is not a map. *)
Fixpoint mapsOf (l : list value) : option (list (gmap string value)) :=
match l with
| [] => Some []
| VMap m :: rest =>
  match mapsOf rest with
  | Some ms => Some (m :: ms)
  | None => None
  end
| _ :: _ => None
end.

Definition ToMapSlice (v : option value) : list (gmap string value) :=
match mapsOf (ToInterfaceSlice v) with
| Some ms => ms
| None => []
end.

End convert.
End convert.

Module values.

(** [values.GetValue data keys...]: [None] is the pair (nil, false). *)
Fixpoint GetValue (data : gmap string value) (keys : list string)
  : option value :=
  match keys with
  | [] => None
  | key :: rest =>
      match rest with
      | [] => data !! key
      | _ :: _ =>
          match data !! key with
          | Some (VMap m) => GetValue m rest
          | _ => None
          end
      end
  end.

(** [values.GetValueN]. *)
Definition GetValueN (data : gmap string value) (keys : list string)
  : option value := GetValue data keys.

(** [values.GetSlice]. *)
Definition GetSlice (data : gmap string value) (keys : list string)
  : list (gmap string value) := convert.ToMapSlice (GetValue data keys).

(** [values.PutValue data val keys...]: missing maps on the way are
    created; a value on the way that is not a map stops the call. *)
Fixpoint PutValue (data : gmap string value) (val : value)
  (keys : list string) : gmap string value :=
  match keys with
  | [] => data
  | key :: rest =>
      match rest with
      | [] => <[key := val]> data
      | _ :: _ =>
          match data !! key with
          | Some (VMap m) => <[key := VMap (PutValue m val rest)]> data
          | Some _ => data
          | None => <[key := VMap (PutValue ∅ val rest)]> data
          end
      end
  end.

(** [values.RemoveValue data keys...]. *)
Fixpoint RemoveValue (data : gmap string value) (keys : list string)
  : gmap string value :=
  match keys with
  | [] => data
  | key :: rest =>
      match rest with
      | [] => delete key data
      | _ :: _ =>
          match data !! key with
          | Some (VMap m) => <[key := VMap (RemoveValue m rest)]> data
          | _ => data
          end
      end
  end.

End values.

Import convert values.

(** ** The passes of workload_store.go *)

Section workload.
Context `{Collaborators}.

(** [generateDNSName workloadName dnsName]. *)
Definition generateDNSName (workloadName dnsName : string) : bool :=
  if String.eqb dnsName "" then true
  else
    (* regenerate the name in case port type got changed *)
    if EqualFold dnsName workloadName
       || HasPrefix dnsName (workloadName +:+ "-")
    then true
    else false.

(** The name a port goes by in [setPorts]: the [portName] variable after
    the [if]/[else] on [convert.IsEmpty(port["name"])]. *)
Definition portName (port : gmap string value) : string :=
  if IsEmpty (port !! "name") then
    let containerPort := fst (ToNumber (port !! "containerPort")) in
    (* port name is of format containerPortProtoSourcePortKind *)
    let kind := ToString (port !! "kind") in
    let numKind :=
      if String.eqb kind "NodePort" then 1
      else if String.eqb kind "ClusterIP" then 2
      else if String.eqb kind "LoadBalancer" then 3
      else 0 in
    Itoa containerPort
      +:+ ToLower (ToString (port !! "protocol"))
      +:+ ToLower (ToString (port !! "sourcePort"))
      +:+ ToLower (ToString (Some (VNum numKind)))
  else ToString (port !! "name").

(** The error of the duplicate-name branch. *)
Definition duplicatedPort (port : gmap string value) : APIError :=
  NewAPIError InvalidOption
    ("Duplicated port kind=" +:+ fmtV (port !! "kind")
       +:+ ", conainerPort=" +:+ fmtV (port !! "containerPort")
       +:+ ", protcol=" +:+ fmtV (port !! "protocol")).

(** Go's [==] between an interface value and a string constant: the
    value is a string, and that one. *)
Definition eqString (v : option value) (s : string) : bool :=
  match v with
  | Some (VStr s') => String.eqb s' s
  | _ => false
  end.

(** The assignment of [port["dnsName"]] at the end of the loop body. *)
Definition setDNSName (workloadName : string) (port : gmap string value)
  : gmap string value :=
  if generateDNSName workloadName (ToString (port !! "dnsName")) then
    if eqString (port !! "kind") "ClusterIP" then
      (* use workload name for clusterIP service as it will be used by
         dns resolution *)
      <["dnsName" := VStr (ToLower workloadName)]> port
    else
      <["dnsName" := VStr (ToLower workloadName +:+ "-"
                             +:+ ToLower (ToString (port !! "kind")))]> port
  else port.

(** One turn of the loop over the ports of a container, on a port that
    encodes to a map: the error of the duplicate check, or the names in
    use and the port afterwards. *)
Definition setPort (workloadName : string) (usedNames : gset string)
  (port : gmap string value) : APIError + gset string * gmap string value :=
  let portName := portName port in
  (* validate port name *)
  if decide (portName ∈ usedNames) then inl (duplicatedPort port)
  else
    let usedNames := {[portName]} ∪ usedNames in
    let port := <["name" := VStr portName]> port in
    inr (usedNames, setDNSName workloadName port).

(** The loop [for _, p := range ports]: the ports as they stand when the
    loop is left, and the error it is left with, if any.  A port that does
    not encode to a map is skipped. *)
Fixpoint setPorts_ports (workloadName : string) (usedNames : gset string)
  (ports : list value) : list value * option APIError :=
  match ports with
  | [] => ([], None)
  | p :: rest =>
      match EncodeToMap p with
      | None =>
          let '(rest', err) := setPorts_ports workloadName usedNames rest in
          (p :: rest', err)
      | Some port =>
          match setPort workloadName usedNames port with
          | inl err => (p :: rest, Some err)
          | inr (usedNames, port) =>
              let '(rest', err) := setPorts_ports workloadName usedNames rest in
              (VMap port :: rest', err)
          end
      end
  end.

(** One turn of the loop over the containers. *)
Definition setPorts_container (workloadName : string) (c : value)
  : value * option APIError :=
  match EncodeToMap c with
  | None => (c, None)
  | Some cMap =>
      match GetValue cMap ["ports"] with
      | Some (VList ports) =>
          let usedNames : gset string := ∅ in
          let '(ports, err) := setPorts_ports workloadName usedNames ports in
          (VMap (<["ports" := VList ports]> cMap), err)
      | _ => (c, None)
      end
  end.

(** The loop [for _, c := range convert.ToInterfaceSlice(containers)]. *)
Fixpoint setPorts_containers (workloadName : string) (cs : list value)
  : list value * option APIError :=
  match cs with
  | [] => ([], None)
  | c :: rest =>
      match setPorts_container workloadName c with
      | (c, Some err) => (c :: rest, Some err)
      | (c, None) =>
          let '(rest', err) := setPorts_containers workloadName rest in
          (c :: rest', err)
      end
  end.

(** [setPorts workloadName data]: the document afterwards and the error
    returned. *)
Definition setPorts (workloadName : string) (data : gmap string value)
  : gmap string value * option APIError :=
  match GetValue data ["containers"] with
  | None => (data, None)
  | Some (VList containers) =>
      let '(containers, err) := setPorts_containers workloadName containers in
      (<["containers" := VList containers]> data, err)
  | Some _ => (data, None)
  end.

(** [getNodeName]. *)
Definition getNodeName (nodeID : string) : string :=
  match nodeByID nodeID with
  | Some NodeName => NodeName
  | None => ""
  end.

Definition stateAnnotation : list string :=
  ["annotations"; "workload.cattle.io/state"].

(** [setState]. *)
Definition setState (data : gmap string value)
  (stateMap : gmap string string) : gmap string value :=
  match jsonMarshal stateMap with
  | None => data
  | Some content => PutValue data (VStr content) stateAnnotation
  end.

(** [getState]. *)
Definition getState (data : gmap string value) : gmap string string :=
  match GetValue data stateAnnotation with
  | Some v => jsonUnmarshal (ToString (Some v))
  | None => ∅
  end.

(** [setScheduling]. *)
Definition setScheduling (data : gmap string value) : gmap string value :=
  let nodeID := ToString (GetValueN data ["scheduling"; "node"; "nodeId"]) in
  if negb (String.eqb nodeID "") then
    let nodeName := getNodeName nodeID in
    let data := PutValue data (VStr nodeName) ["scheduling"; "node"; "nodeId"] in
    let state := getState data in
    let state := <[getKey nodeName := nodeID]> state in
    setState data state
  else PutValue data (VStr "") ["nodeId"].

(** [setStrategy]. *)
Definition setStrategy (data : gmap string value) : gmap string value :=
  match GetValue data ["deploymentConfig"; "strategy"] with
  | Some strategy =>
      if String.eqb (ToString (Some strategy)) "Recreate" then
        let data := RemoveValue data ["deploymentConfig"; "maxSurge"] in
        RemoveValue data ["deploymentConfig"; "maxUnavailable"]
      else data
  | None => data
  end.

Definition isJob (schemaID : string) : bool :=
  EqualFold schemaID "job" || EqualFold schemaID "cronJob".

(** [setSelector]. *)
Definition setSelector (schemaID : string) (data : gmap string value)
  : gmap string value :=
  if IsEmpty (data !! "selector") && negb (isJob schemaID) then
    let workloadID := resolveWorkloadID schemaID data in
    (* set selector *)
    let data :=
      <["selector" :=
          VMap {["matchLabels" := VMap {[SelectorLabel := VStr workloadID]}]}]>
        data in
    (* set workload labels *)
    let workloadLabels :=
      default ∅ (ToMapInterface (data !! "workloadLabels")) in
    let data :=
      <["workloadLabels" :=
          VMap (<[SelectorLabel := VStr workloadID]> workloadLabels)]> data in
    (* set labels *)
    let labels := default ∅ (ToMapInterface (data !! "labels")) in
    <["labels" := VMap (<[SelectorLabel := VStr workloadID]> labels)]> data
  else data.

(** [setWorkloadSpecificDefaults]. *)
Definition setWorkloadSpecificDefaults (schemaID : string)
  (data : gmap string value) : gmap string value :=
  if isJob schemaID then
    (* job has different defaults *)
    match data !! "restartPolicy" with
    | Some _ => data
    | None => <["restartPolicy" := VStr "OnFailure"]> data
    end
  else data.

(** [getCreds]. *)
Definition getCreds (namespaceID : string) : gmap string (list string) :=
  let domainToCreds : gmap string (list string) := ∅ in
  let domainToCreds :=
    match listNamespacedDockerCredentials with
    | Some namespacedCreds =>
        fold_left
          (fun acc '(NamespaceId, registries, Name) =>
             if String.eqb NamespaceId namespaceID
             then storeRegistries registries acc Name else acc)
          namespacedCreds domainToCreds
    | None => domainToCreds
    end in
  match listDockerCredentials with
  | Some creds =>
      fold_left
        (fun acc '(registries, Name) => storeRegistries registries acc Name)
        creds domainToCreds
  | None => domainToCreds
  end.

(** [getDomain]. *)
Definition getDomain (image : string) : string :=
  match parseDomain image with
  | None => ""
  | Some domain =>
      if String.eqb domain "docker.io" then "index.docker.io" else domain
  end.

(** [setSecrets]. *)
Definition setSecrets (data : gmap string value) : gmap string value :=
  match GetValue data ["imagePullSecrets"] with
  | Some _ => data
  | None =>
      let containers := GetSlice data ["containers"] in
      match containers with
      | [] => data
      | _ :: _ =>
          let domainToCreds := getCreds (ToString (data !! "namespaceId")) in
          let imagePullSecrets :=
            fold_left
              (fun acc container =>
                 let image := ToString (container !! "image") in
                 if negb (String.eqb image "") then
                   match domainToCreds !! getDomain image with
                   | Some secrets => acc ++ secrets
                   | None => acc
                   end
                 else acc)
              containers [] in
          match imagePullSecrets with
          | [] => data
          | _ :: _ => PutValue data (VSecrets imagePullSecrets) ["imagePullSecrets"]
          end
      end
  end.

(** Modelled from the spec: [splitTypeAndID] is declared in another file
    of the package.  The spec describes a composite identifier as
    [<type>:<shortId>], possibly followed by more segments, and has
    [ByID] reduce "deployment:web:extra" to "web": the short identifier
    is the segment that follows the type. *)
Definition splitTypeAndID (id : string) : string * string :=
  let parts := Split id ":" in
  (nth 0 parts "", nth 1 parts "").

Definition createPasses (schemaID : string) (data : gmap string value)
  : gmap string value * option APIError :=
  let data := setSelector schemaID data in
  let data := setWorkloadSpecificDefaults schemaID data in
  let data := setSecrets data in
  match setPorts (ToString (data !! "name")) data with
  | (data, Some err) => (data, Some err)
  | (data, None) =>
      let data := setScheduling data in
      let data := setStrategy data in
      (data, None)
  end.

Definition updatePasses (workloadName : string) (data : gmap string value)
  : gmap string value * option APIError :=
  match setPorts workloadName data with
  | (data, Some err) => (data, Some err)
  | (data, None) =>
      let data := setScheduling data in
      let data := setStrategy data in
      (data, None)
  end.

Section store.
Context {S : Type} `{Store S}.

(** [CustomizeStore.Create].  [createPasses] is the body up to the call
    of the wrapped store: the document as the passes leave it, and the
    error of [setPorts], if any. *)
Definition Create (schemaID : string) (data : gmap string value) (s : S)
  : (gmap string value + APIError) * S :=
  match createPasses schemaID data with
  | (_, Some err) => (inr err, s)
  | (data, None) => store_Create schemaID data s
  end.

(** [CustomizeStore.Update]: [splitted[1]] panics when the identifier
    has a single segment.  [updatePasses] is the body between the split
    and the call of the wrapped store. *)
Definition Update (schemaID : string) (data : gmap string value)
  (id : string) (s : S) : outcome ((gmap string value + APIError) * S) :=
  let splitted := Split id ":" in
  match splitted !! 1%nat with
  | None => Panicked
  | Some workloadName =>
      Returned
        match updatePasses workloadName data with
        | (_, Some err) => (inr err, s)
        | (data, None) => store_Update schemaID data id s
        end
  end.

(** [CustomizeStore.ByID]. *)
Definition ByID (schemaID : string) (id : string) (s : S)
  : (gmap string value + APIError) * S :=
  let shortID :=
    if (1 <? Count id ":")%nat then snd (splitTypeAndID id) else id in
  store_ByID schemaID shortID s.

End store.
End workload.

(** ** A concrete setting to run the passes in *)

(** Collaborators for concrete runs: composite values render as the empty
    string, no node is found, no credential is listed. *)
Definition quietCollaborators : Collaborators := {|
  sprintComposite := fun _ => "";
  SelectorLabel := "workload.user.cattle.io/workloadselector";
  resolveWorkloadID := fun schemaID _ => schemaID;
  getKey := fun key => key;
  nodeByID := fun _ => None;
  Registries := list string;
  listNamespacedDockerCredentials := None;
  listDockerCredentials := None;
  storeRegistries := fun _ domainToCreds _ => domainToCreds;
  parseDomain := fun _ => None;
  jsonMarshal := fun _ => Some "{}";
  jsonUnmarshal := fun _ => ∅
|}.

(** A store that keeps every document it is given, newest first, and
    answers with the document. *)
Definition logStore : Store (list (gmap string value)) := {|
  store_Create := fun _ data s => (inl data, data :: s);
  store_Update := fun _ data _ s => (inl data, data :: s);
  store_ByID := fun _ id s => (inl {["id" := VStr id]}, s)
|}.

Definition mkPort (fields : list (string * value)) : value :=
  VMap (list_to_map fields).

Definition mkWorkload (name : string) (containers : list (list value))
  : gmap string value :=
  list_to_map
    [("name", VStr name);
     ("containers",
      VList (map (fun ports => VMap {["ports" := VList ports]}) containers))].

(** ** Notions the statements below are phrased with *)

Section notions.
Context `{Collaborators}.

(** The single digit that stands for a kind in a derived name. *)
Definition kindCode (kind : string) : string :=
  if String.eqb kind "NodePort" then "1"
  else if String.eqb kind "ClusterIP" then "2"
  else if String.eqb kind "LoadBalancer" then "3"
  else "0".

(** The ports of a container, when it is a map with a slice under
    "ports". *)
Definition containerPorts (c : value) : option (list value) :=
  match c with
  | VMap cMap =>
      match cMap !! "ports" with
      | Some (VList ports) => Some ports
      | _ => None
      end
  | _ => None
  end.

(** The names the ports of one list go by, in order. *)
Definition portNames (ports : list value) : list string :=
  portName <$> omap EncodeToMap ports.







(** [p'] is the port [p] after a turn of the port loop that did not
    fail. *)
Definition portProcessed (workloadName : string) (p p' : value) : Prop :=
  match p with
  | VMap port =>
      p' = VMap (setDNSName workloadName
                   (<["name" := VStr (portName port)]> port))
  | _ => p' = p
  end.

(** [c'] is the container [c] after a turn of the container loop that
    did not fail. *)
Definition containerProcessed (workloadName : string) (c c' : value)
  : Prop :=
  match c with
  | VMap cMap =>
      match cMap !! "ports" with
      | Some (VList ports) =>
          ∃ ports', Forall2 (portProcessed workloadName) ports ports'
                    ∧ c' = VMap (<["ports" := VList ports']> cMap)
      | _ => c' = c
      end
  | _ => c' = c
  end.

Definition knownProtocols : list string := ["TCP"; "UDP"; "SCTP"].


(** A field that holds a port number, or nothing. *)
Definition portNumberOrUnset (v : option value) : Prop :=
  v = None ∨ ∃ n, v = Some (VNum n) ∧ 0 <= n < 65536.

Definition nodeIdPath : list string := ["scheduling"; "node"; "nodeId"].

End notions.

(** ** Sample documents *)

Definition tcp8080 : value :=
  mkPort [("containerPort", VNum 8080); ("protocol", VStr "TCP")].

Definition namedHttp : value :=
  mkPort [("name", VStr "http"); ("containerPort", VNum 80);
          ("protocol", VStr "TCP")].

Definition portOf (p : value) : gmap string value :=
  default ∅ (EncodeToMap p).

(** A workload whose single container lists the same port twice. *)
Definition twice8080 : gmap string value :=
  mkWorkload "web" [[tcp8080; tcp8080]].

(** A workload with two containers, each with a port named "http". *)
Definition httpInTwoContainers : gmap string value :=
  mkWorkload "web" [[namedHttp]; [namedHttp]].

(** A workload pinned to a node. *)
Definition pinned : gmap string value :=
  <["scheduling" := VMap {["node" := VMap {["nodeId" := VStr "c-1:m-1"]}]}]>
    (mkWorkload "web" [[namedHttp]]).

(** A workload whose second container lists the same port twice, behind a
    first container and a first port that are in order. *)
Definition lateDuplicate : gmap string value :=
  mkWorkload "web" [[tcp8080]; [namedHttp; tcp8080; tcp8080]].

(** A field of the [j]-th port of the [i]-th container. *)
Definition portField (data : gmap string value) (i j : nat) (field : string)
  : option value :=
  match data !! "containers" with
  | Some (VList containers) =>
      c ← containers !! i;
      ports ← containerPorts c;
      p ← ports !! j;
      port ← EncodeToMap p;
      port !! field
  | _ => None
  end.


Definition customDNS : gmap string value :=
  portOf (mkPort [("name", VStr "http"); ("kind", VStr "NodePort");
                  ("dnsName", VStr "custom")]).

Definition staleDNS : gmap string value :=
  portOf (mkPort [("name", VStr "http"); ("kind", VStr "ClusterIP");
                  ("dnsName", VStr "web-nodeport")]).

Definition clusterIPPort : gmap string value :=
  portOf (mkPort [("containerPort", VNum 80); ("kind", VStr "ClusterIP")]).

Definition nodePortPort : gmap string value :=
  portOf (mkPort [("containerPort", VNum 80); ("kind", VStr "NodePort")]).

Definition negativePort : gmap string value :=
  portOf (mkPort [("containerPort", VNum (-1000000000000));
                  ("protocol", VStr "TCP"); ("kind", VStr "NodePort")]).

Definition longSourcePort : gmap string value :=
  portOf (mkPort [("containerPort", VNum 8080); ("protocol", VStr "TCP");
                  ("sourcePort", VStr "3000030001");
                  ("kind", VStr "NodePort")]).

Definition widestPort : gmap string value :=
  portOf (mkPort [("containerPort", VNum 65535); ("protocol", VStr "SCTP");
                  ("sourcePort", VNum 65535);
                  ("kind", VStr "LoadBalancer")]).

(** ** Further notions and sample documents *)



(** The "annotations" field can be written through: it is unset or a map. *)
Definition annotationsWritable (data : gmap string value) : Prop :=
  data !! "annotations" = None
  ∨ ∃ annotations, data !! "annotations" = Some (VMap annotations).

(** A deployment that is recreated on rollout. *)
Definition recreated : gmap string value :=
  <["deploymentConfig" :=
      VMap (list_to_map [("strategy", VStr "Recreate");
                         ("maxSurge", VNum 1);
                         ("maxUnavailable", VNum 0);
                         ("minReadySeconds", VNum 5)])]>
    (mkWorkload "web" [[namedHttp]]).

(** A workload with labels of its own. *)
Definition labelled : gmap string value :=
  <["labels" := VMap {["tier" := VStr "front"]}]>
    (mkWorkload "web" [[namedHttp]]).

(** Collaborators that find the node of [pinned] and one cluster-wide
    credential for the registry "registry.local". *)
Definition busyCollaborators : Collaborators := {|
  sprintComposite := fun _ => "";
  SelectorLabel := "workload.user.cattle.io/workloadselector";
  resolveWorkloadID := fun schemaID _ => schemaID;
  getKey := fun key => key;
  nodeByID := fun nodeID =>
    if String.eqb nodeID "c-1:m-1" then Some "worker-1" else None;
  Registries := list string;
  listNamespacedDockerCredentials := None;
  listDockerCredentials := Some [(["registry.local"], "regcred")];
  storeRegistries := fun registries domainToCreds Name =>
    fold_left
      (fun acc registry =>
         <[registry := default [] (acc !! registry) ++ [Name]]> acc)
      registries domainToCreds;
  parseDomain := fun image =>
    if String.prefix "registry.local/" image then Some "registry.local"
    else Some "docker.io";
  jsonMarshal := fun _ => Some "{}";
  jsonUnmarshal := fun _ => ∅
|}.

(** A workload whose container runs an image of "registry.local". *)
Definition privateImage : gmap string value :=
  list_to_map
    [("name", VStr "web");
     ("containers",
      VList [VMap {["image" := VStr "registry.local/app:v1"]}])].


Definition batchJob : gmap string value := mkWorkload "batch" [[namedHttp]].

(** A workload whose "annotations" field is a string. *)
Definition blockedAnnotations : gmap string value :=
  <["annotations" := VStr "none"]> (mkWorkload "web" [[namedHttp]]).

(** The fields of the [j]-th port of a list. *)
Definition fieldOf (ports : list value) (j : nat) (field : string)
  : option value :=
  p ← ports !! j; port ← EncodeToMap p; port !! field.

Section more_notions.
Context `{Collaborators}.

(** The DNS name [setDNSName] computes for a port. *)
Definition generatedDNSName (w : string) (port : gmap string value)
  : string :=
  if eqString (port !! "kind") "ClusterIP" then ToLower w
  else ToLower w +:+ "-" +:+ ToLower (ToString (port !! "kind")).

End more_notions.

(** ** Go strings *)

Module GoStringsFacts.

Lemma length_app (s t : string) :
  String.length (s +:+ t) = (String.length s + String.length t)%nat.
Proof. induction s as [|c s IH]; simpl; [done | by rewrite IH]. Qed.

Lemma ToLower_length (s : string) :
  String.length (ToLower s) = String.length s.
Proof. induction s as [|c s IH]; simpl; [done | by rewrite IH]. Qed.

Lemma prefix_app (p s : string) :
  String.prefix p s = true ↔ ∃ rest, s = p +:+ rest.
Proof.
  revert s. induction p as [|c p IH]; intros s.
  - split; [intros _; by exists s | destruct s; done].
  - destruct s as [|c' s]; simpl.
    + split; [done | intros [rest Hrest]; discriminate].
    + destruct (ascii_dec c c') as [->|Hne].
      * rewrite (IH s). split; intros [rest Hrest]; exists rest;
          [by rewrite Hrest | by injection Hrest].
      * split; [done | intros [rest Hrest]; by injection Hrest].
Qed.

Lemma formatBits_length (fuel : nat) :
  ∀ (k : nat) (u : N) (acc : string),
    (1 ≤ k)%nat → (u < 10 ^ N.of_nat k)%N →
    (String.length (formatBits fuel u acc) ≤ k + String.length acc)%nat.
Proof.
  induction fuel as [|fuel IH]; intros k u acc Hk Hu; simpl; [lia|].
  destruct (N.ltb_spec u 10) as [Hlt|Hge]; simpl; [lia|].
  destruct k as [|[|k]]; [lia | simpl in Hu; lia |].
  specialize (IH (S k) (u / 10)%N
                (String (digitByte (u mod 10)%N) acc)).
  simpl in IH. etrans; [apply IH; [lia|] | lia].
  apply N.Div0.div_lt_upper_bound.
  replace (N.of_nat (S (S k))) with (N.succ (N.of_nat (S k))) in Hu by lia.
  by rewrite N.pow_succ_r' in Hu.
Qed.

(** A port number takes at most five characters. *)
Lemma Itoa_port_length (n : Z) :
  0 <= n < 65536 → (String.length (Itoa n) ≤ 5)%nat.
Proof.
  intros Hn. destruct n as [|p|p]; simpl; [lia | | lia].
  unfold formatUint.
  etrans; [apply (formatBits_length _ 5); [lia|] | simpl; lia].
  change (10 ^ N.of_nat 5)%N with 100000%N. lia.
Qed.

Lemma Split_length (s : string) (sep : ascii) :
  length (Split s sep) = S (Count s sep).
Proof.
  induction s as [|c s IH]; simpl; [done|].
  destruct (Ascii.eqb c sep); simpl; [by rewrite IH|].
  destruct (Split s sep); simpl in *; [done | lia].
Qed.

End GoStringsFacts.

Import GoStringsFacts.

(** ** Paths in documents *)

Section values_facts.

Lemma GetValue_head (data data' : gmap string value) (key : string)
  (rest : list string) :
  data !! key = data' !! key →
  GetValue data (key :: rest) = GetValue data' (key :: rest).
Proof. intros Heq. simpl. by rewrite Heq. Qed.

Lemma PutValue_lookup_ne (data : gmap string value) (val : value)
  (key key' : string) (rest : list string) :
  key ≠ key' → PutValue data val (key :: rest) !! key' = data !! key'.
Proof.
  intros Hne. simpl. destruct rest as [|k rest].
  - by rewrite lookup_insert_ne.
  - destruct (data !! key) as [[]|] eqn:E;
      try done; by rewrite lookup_insert_ne.
Qed.

Lemma RemoveValue_lookup_ne (data : gmap string value)
  (key key' : string) (rest : list string) :
  key ≠ key' → RemoveValue data (key :: rest) !! key' = data !! key'.
Proof.
  intros Hne. simpl. destruct rest as [|k rest].
  - by rewrite lookup_delete_ne.
  - destruct (data !! key) as [[]|] eqn:E;
      try done; by rewrite lookup_insert_ne.
Qed.

(** Writing along a path that can be read gives the value back. *)
Lemma GetValue_PutValue (keys : list string) :
  ∀ (data : gmap string value) (val : value),
    is_Some (GetValue data keys) →
    GetValue (PutValue data val keys) keys = Some val.
Proof.
  induction keys as [|key rest IH]; intros data val [old Hold].
  - done.
  - simpl in *. destruct rest as [|k rest].
    + by rewrite lookup_insert_eq.
    + destruct (data !! key) as [[| | | |m|]|] eqn:E; try done.
      rewrite lookup_insert_eq. apply IH. by exists old.
Qed.

End values_facts.

(** ** The port loops *)

Section ports_facts.
Context `{Collaborators}.

Lemma setDNSName_lookup_ne (w : string) (port : gmap string value)
  (key : string) :
  key ≠ "dnsName" → setDNSName w port !! key = port !! key.
Proof.
  intros Hne. unfold setDNSName.
  destruct (generateDNSName _ _); [|done].
  destruct (eqString _ _); by rewrite lookup_insert_ne.
Qed.

Lemma setPort_inr (w : string) (used used' : gset string)
  (port port' : gmap string value) :
  setPort w used port = inr (used', port') →
  (portName port ∉ used)
  ∧ used' = {[portName port]} ∪ used
  ∧ port' = setDNSName w (<["name" := VStr (portName port)]> port).
Proof. unfold setPort. case_decide; [done|]. by intros [= <- <-]. Qed.

Lemma setPort_inl (w : string) (used : gset string)
  (port : gmap string value) (err : APIError) :
  setPort w used port = inl err →
  portName port ∈ used ∧ err = duplicatedPort port.
Proof. unfold setPort. case_decide; [|done]. by intros [= <-]. Qed.

Lemma portNames_cons_map (port : gmap string value) (ports : list value) :
  portNames (VMap port :: ports) = portName port :: portNames ports.
Proof. done. Qed.

Lemma portNames_cons_skip (p : value) (ports : list value) :
  EncodeToMap p = None → portNames (p :: ports) = portNames ports.
Proof. intros Hp. unfold portNames. simpl. by rewrite Hp. Qed.

Lemma EncodeToMap_Some (p : value) (port : gmap string value) :
  EncodeToMap p = Some port → p = VMap port.
Proof. destruct p; simpl; congruence. Qed.

(** A run of the port loop without error: the names are pairwise
    distinct and fresh, and every port has been through the body. *)
Lemma setPorts_ports_ok (w : string) (ports : list value) :
  ∀ (used : gset string) (ports' : list value),
    setPorts_ports w used ports = (ports', None) →
    NoDup (portNames ports)
    ∧ (∀ n, n ∈ portNames ports → n ∉ used)
    ∧ Forall2 (portProcessed w) ports ports'.
Proof.
  induction ports as [|p rest IH]; intros used ports' Hrun; simpl in Hrun.
  - injection Hrun as <-. split_and!; [constructor | set_solver | constructor].
  - destruct (EncodeToMap p) as [port|] eqn:Hp.
    + apply EncodeToMap_Some in Hp as ->.
      destruct (setPort w used port) as [err|[used1 port1]] eqn:Hport; [done|].
      apply setPort_inr in Hport as (Hfresh & -> & ->).
      destruct (setPorts_ports w _ rest) as [rest' err] eqn:Hrest.
      injection Hrun as <- ->.
      destruct (IH _ _ Hrest) as (Hnd & Hused & Hall).
      rewrite portNames_cons_map. split_and!.
      * constructor; [|done]. intros Hin. apply Hused in Hin. set_solver.
      * intros n [->|Hin]%elem_of_cons; [done|].
        apply Hused in Hin. set_solver.
      * by constructor.
    + destruct (setPorts_ports w used rest) as [rest' err] eqn:Hrest.
      injection Hrun as <- ->.
      destruct (IH _ _ Hrest) as (Hnd & Hused & Hall).
      rewrite portNames_cons_skip by done. split_and!; [done..|].
      constructor; [|done]. destruct p; done.
Qed.

(** A run of the port loop that fails: it fails on a port whose name is
    in use, everything before it has been through the body, the port and
    everything behind it are as they were. *)
Lemma setPorts_ports_err (w : string) (ports : list value) :
  ∀ (used : gset string) (ports' : list value) (err : APIError),
    setPorts_ports w used ports = (ports', Some err) →
    ∃ done port rest done',
      ports = done ++ VMap port :: rest
      ∧ err = duplicatedPort port
      ∧ (portName port ∈ used ∨ portName port ∈ portNames done)
      ∧ setPorts_ports w used done = (done', None)
      ∧ ports' = done' ++ VMap port :: rest.
Proof.
  induction ports as [|p rest IH]; intros used ports' err Hrun;
    simpl in Hrun; [done|].
  destruct (EncodeToMap p) as [port|] eqn:Hp.
  - pose proof (EncodeToMap_Some _ _ Hp) as ->.
    destruct (setPort w used port) as [e|[used1 port1]] eqn:Hport.
    + injection Hrun as <- <-.
      apply setPort_inl in Hport as [Hin ->].
      exists [], port, rest, []. split_and!; auto.
    + pose proof (setPort_inr _ _ _ _ _ Hport) as (Hfresh & -> & ->).
      destruct (setPorts_ports w _ rest) as [rest' e] eqn:Hrest.
      injection Hrun as <- ->.
      destruct (IH _ _ _ Hrest)
        as (done & q & rest2 & done' & -> & -> & Hdup & Hdone & ->).
      exists (VMap port :: done), q, rest2,
        (VMap (setDNSName w (<["name" := VStr (portName port)]> port))
           :: done').
      split_and!; [done | done | | | done].
      * rewrite portNames_cons_map.
        destruct Hdup as [Hdup|Hdup]; [|set_solver].
        apply elem_of_union in Hdup as [Hdup|Hdup]; [|by left].
        right. set_solver.
      * simpl. rewrite Hport, Hdone. done.
  - destruct (setPorts_ports w used rest) as [rest' e] eqn:Hrest.
    injection Hrun as <- ->.
    destruct (IH _ _ _ Hrest)
      as (done & q & rest2 & done' & -> & -> & Hdup & Hdone & ->).
    exists (p :: done), q, rest2, (p :: done').
    split_and!; [done | done | | | done].
    + rewrite portNames_cons_skip by done. done.
    + simpl. rewrite Hp, Hdone. done.
Qed.




End ports_facts.

(** ** The container loop and [setPorts] *)

Section containers_facts.
Context `{Collaborators}.

Lemma setPorts_container_ok (w : string) (c c' : value) :
  setPorts_container w c = (c', None) →
  containerProcessed w c c'
  ∧ (∀ ports, containerPorts c = Some ports → NoDup (portNames ports)).
Proof.
  unfold setPorts_container, containerProcessed, containerPorts.
  destruct c as [| | | |cMap|]; simpl; try by intros [= <-].
  destruct (cMap !! "ports") as [[| | |ports| |]|] eqn:Hports;
    try by intros [= <-].
  destruct (setPorts_ports w ∅ ports) as [ports' err] eqn:Hrun.
  intros [= <- ->].
  apply setPorts_ports_ok in Hrun as (Hnd & _ & Hall).
  split; [by exists ports' | by intros ? [= <-]].
Qed.

Lemma setPorts_container_err (w : string) (c c' : value) (err : APIError) :
  setPorts_container w c = (c', Some err) →
  ∃ cMap done port rest done',
    c = VMap cMap
    ∧ cMap !! "ports" = Some (VList (done ++ VMap port :: rest))
    ∧ err = duplicatedPort port
    ∧ portName port ∈ portNames done
    ∧ setPorts_ports w ∅ done = (done', None)
    ∧ c' = VMap (<["ports" := VList (done' ++ VMap port :: rest)]> cMap).
Proof.
  unfold setPorts_container.
  destruct c as [| | | |cMap|]; simpl; try done.
  destruct (cMap !! "ports") as [[| | |ports| |]|] eqn:Hports; try done.
  destruct (setPorts_ports w ∅ ports) as [ports' e] eqn:Hrun.
  intros [= <- ->].
  apply setPorts_ports_err in Hrun
    as (done & port & rest & done' & -> & -> & Hdup & Hdone & ->).
  exists cMap, done, port, rest, done'.
  split_and!; try done. destruct Hdup as [Hdup|Hdup]; [set_solver | done].
Qed.

Lemma setPorts_containers_ok (w : string) (cs : list value) :
  ∀ cs', setPorts_containers w cs = (cs', None) →
    Forall2 (containerProcessed w) cs cs'
    ∧ (∀ c ports, c ∈ cs → containerPorts c = Some ports →
                  NoDup (portNames ports)).
Proof.
  induction cs as [|c rest IH]; intros cs' Hrun; simpl in Hrun.
  - injection Hrun as <-. split; [constructor | set_solver].
  - destruct (setPorts_container w c) as [c1 [e|]] eqn:Hc; [done|].
    destruct (setPorts_containers w rest) as [rest' e] eqn:Hrest.
    injection Hrun as <- ->.
    apply setPorts_container_ok in Hc as [Hc Hnd].
    destruct (IH _ eq_refl) as [Hall Hnds].
    split; [by constructor|].
    intros c0 ports [->|Hin]%elem_of_cons Hports; eauto.
Qed.

Lemma setPorts_containers_err (w : string) (cs : list value) :
  ∀ cs' err, setPorts_containers w cs = (cs', Some err) →
    ∃ before c after before' c',
      cs = before ++ c :: after
      ∧ setPorts_containers w before = (before', None)
      ∧ setPorts_container w c = (c', Some err)
      ∧ cs' = before' ++ c' :: after.
Proof.
  induction cs as [|c rest IH]; intros cs' err Hrun; simpl in Hrun; [done|].
  destruct (setPorts_container w c) as [c1 [e|]] eqn:Hc.
  - injection Hrun as <- <-. by exists [], c, rest, [], c1.
  - destruct (setPorts_containers w rest) as [rest' e] eqn:Hrest.
    injection Hrun as <- ->.
    destruct (IH _ _ eq_refl)
      as (before & c0 & after & before' & c0' & -> & Hbefore & Hc0 & ->).
    exists (c :: before), c0, after, (c1 :: before'), c0'.
    split_and!; try done. simpl. by rewrite Hc, Hbefore.
Qed.

Local Instance VStr_inj : Inj (=) (=) VStr.
Proof. by intros s t [= ->]. Qed.


Lemma setPorts_lookup_ne (w : string) (data : gmap string value)
  (key : string) :
  key ≠ "containers" → (setPorts w data).1 !! key = data !! key.
Proof.
  intros Hne. unfold setPorts. simpl.
  destruct (data !! "containers") as [[| | |cs| |]|]; try done.
  destruct (setPorts_containers w cs) as [cs' err]. simpl.
  by rewrite lookup_insert_ne.
Qed.



End containers_facts.

(** ** Port names and DNS names *)

Section naming.
Context `{Collaborators}.

Lemma ToString_VNum (n : Z) : ToString (Some (VNum n)) = Itoa n.
Proof. done. Qed.

Lemma ToString_VStr (s : string) : ToString (Some (VStr s)) = s.
Proof. done. Qed.

Lemma kindCode_numKind (kind : string) :
  ToLower
    (ToString
       (Some (VNum (if String.eqb kind "NodePort" then 1
                    else if String.eqb kind "ClusterIP" then 2
                    else if String.eqb kind "LoadBalancer" then 3
                    else 0))))
  = kindCode kind.
Proof.
  unfold kindCode.
  destruct (String.eqb kind "NodePort"); [done|].
  destruct (String.eqb kind "ClusterIP"); [done|].
  by destruct (String.eqb kind "LoadBalancer").
Qed.

Lemma kindCode_length (kind : string) : String.length (kindCode kind) = 1%nat.
Proof.
  unfold kindCode.
  destruct (String.eqb kind "NodePort"); [done|].
  destruct (String.eqb kind "ClusterIP"); [done|].
  by destruct (String.eqb kind "LoadBalancer").
Qed.

(** The derived name, spelled out. *)
Lemma portName_derived (port : gmap string value) :
  IsEmpty (port !! "name") = true →
  portName port
  = Itoa (ToNumber (port !! "containerPort")).1
      +:+ ToLower (ToString (port !! "protocol"))
      +:+ ToLower (ToString (port !! "sourcePort"))
      +:+ kindCode (ToString (port !! "kind")).
Proof.
  intros Hempty. unfold portName. rewrite Hempty.
  by rewrite kindCode_numKind.
Qed.


(** [generateDNSName] holds for an empty name, for a name that is the
    workload name up to case, and for a name that begins with the workload
    name and a hyphen. *)
Lemma generateDNSName_true (workloadName dnsName : string) :
  generateDNSName workloadName dnsName = true
  ↔ dnsName = ""
    ∨ ToLower dnsName = ToLower workloadName
    ∨ ∃ rest, dnsName = (workloadName +:+ "-") +:+ rest.
Proof.
  unfold generateDNSName, EqualFold, HasPrefix.
  destruct (String.eqb_spec dnsName "") as [->|Hne]; [tauto|].
  destruct (String.eqb_spec (ToLower dnsName) (ToLower workloadName))
    as [Heq|Hneq]; simpl; [tauto|].
  destruct (String.prefix (workloadName +:+ "-") dnsName) eqn:Hpre.
  - apply prefix_app in Hpre. tauto.
  - split; [done|]. intros [?|[?|Hrest]]; try done.
    apply prefix_app in Hrest. congruence.
Qed.

(** C3, as the code has it: the DNS name of a port is computed anew exactly
    when it is empty, or is the workload name up to case, or begins with
    the workload name and a hyphen; any other DNS name is left as it is. *)
Theorem C3_dns_name_regeneration (w : string) (used used' : gset string)
  (port port' : gmap string value) :
  setPort w used port = inr (used', port') →
  let dnsName := ToString (port !! "dnsName") in
  let kind := ToString (port !! "kind") in
  (generateDNSName w dnsName = true
   ↔ dnsName = "" ∨ ToLower dnsName = ToLower w
     ∨ ∃ rest, dnsName = (w +:+ "-") +:+ rest)
  ∧ (generateDNSName w dnsName = true →
     port' !! "dnsName" = Some (VStr (ToLower w))
     ∨ port' !! "dnsName" = Some (VStr (ToLower w +:+ "-" +:+ ToLower kind)))
  ∧ (generateDNSName w dnsName = false →
     port' !! "dnsName" = port !! "dnsName").
Proof.
  intros (_ & _ & ->)%setPort_inr. simpl.
  split; [apply generateDNSName_true|].
  unfold setDNSName. rewrite !lookup_insert_ne by done.
  destruct (generateDNSName w _); split; try done.
  - intros _. destruct (eqString _ _); rewrite lookup_insert_eq; auto.
  - intros _. by rewrite lookup_insert_ne.
Qed.

(** C4: when the DNS name is computed anew, a port of kind "ClusterIP" gets
    the workload name in lower case, any other port the workload name in
    lower case, a hyphen and its kind in lower case. *)
Theorem C4_dns_name_value (w : string) (used used' : gset string)
  (port port' : gmap string value) :
  setPort w used port = inr (used', port') →
  generateDNSName w (ToString (port !! "dnsName")) = true →
  (port !! "kind" = Some (VStr "ClusterIP") →
   port' !! "dnsName" = Some (VStr (ToLower w)))
  ∧ (port !! "kind" ≠ Some (VStr "ClusterIP") →
     port' !! "dnsName"
     = Some (VStr (ToLower w +:+ "-" +:+ ToLower (ToString (port !! "kind"))))).
Proof.
  intros (_ & _ & ->)%setPort_inr Hgen.
  unfold setDNSName. rewrite !lookup_insert_ne by done. rewrite Hgen.
  split.
  - intros ->. simpl. by rewrite lookup_insert_eq.
  - intros Hkind.
    destruct (eqString (port !! "kind") "ClusterIP") eqn:Heq.
    + destruct (port !! "kind") as [[kind| | | | |]|]; try done.
      simpl in Heq. apply String.eqb_eq in Heq as ->. done.
    + by rewrite lookup_insert_eq.
Qed.

(** C6, as the code has it: a derived name has at most 15 characters when
    the container port is a port number, the protocol is a known one and
    the source port is unset or a port number, whatever the kind. *)
Theorem C6_derived_name_length (port : gmap string value) (n : Z)
  (protocol : string) :
  IsEmpty (port !! "name") = true →
  port !! "containerPort" = Some (VNum n) →
  0 <= n < 65536 →
  port !! "protocol" = Some (VStr protocol) →
  protocol ∈ knownProtocols →
  portNumberOrUnset (port !! "sourcePort") →
  (String.length (portName port) ≤ 15)%nat.
Proof.
  intros Hempty Hcp Hn Hproto Hknown Hsrc.
  rewrite portName_derived by done.
  rewrite Hcp, Hproto, ToString_VStr. simpl ToNumber. simpl fst.
  rewrite !length_app, !ToLower_length, kindCode_length.
  pose proof (Itoa_port_length n Hn) as Hlen.
  assert (String.length protocol ≤ 4)%nat as Hplen.
  { unfold knownProtocols in Hknown.
    repeat (apply elem_of_cons in Hknown as [->|Hknown]; [simpl; lia|]).
    by apply elem_of_nil in Hknown. }
  assert (String.length (ToString (port !! "sourcePort")) ≤ 5)%nat as Hslen.
  { destruct Hsrc as [->|(m & -> & Hm)]; [simpl; lia|].
    rewrite ToString_VNum. by apply Itoa_port_length. }
  lia.
Qed.

End naming.

(** ** What each pass leaves alone *)

Section passes_facts.
Context `{Collaborators}.

Lemma setSelector_lookup_ne (schemaID : string) (data : gmap string value)
  (key : string) :
  key ≠ "selector" → key ≠ "workloadLabels" → key ≠ "labels" →
  setSelector schemaID data !! key = data !! key.
Proof.
  intros H1 H2 H3. unfold setSelector.
  destruct (_ && _); [|done]. by rewrite !lookup_insert_ne.
Qed.

Lemma setWorkloadSpecificDefaults_lookup_ne (schemaID : string)
  (data : gmap string value) (key : string) :
  key ≠ "restartPolicy" →
  setWorkloadSpecificDefaults schemaID data !! key = data !! key.
Proof.
  intros Hne. unfold setWorkloadSpecificDefaults.
  destruct (isJob _); [|done].
  destruct (data !! "restartPolicy"); [done|]. by rewrite lookup_insert_ne.
Qed.

Lemma setSecrets_lookup_ne (data : gmap string value) (key : string) :
  key ≠ "imagePullSecrets" → setSecrets data !! key = data !! key.
Proof.
  intros Hne. unfold setSecrets.
  destruct (GetValue _ _); [done|].
  destruct (GetSlice _ _); [done|].
  destruct (fold_left _ _ _); [done|].
  by apply PutValue_lookup_ne.
Qed.

Lemma setState_lookup_ne (data : gmap string value)
  (stateMap : gmap string string) (key : string) :
  key ≠ "annotations" → setState data stateMap !! key = data !! key.
Proof.
  intros Hne. unfold setState. destruct (jsonMarshal _); [|done].
  by apply PutValue_lookup_ne.
Qed.

Lemma setScheduling_lookup_ne (data : gmap string value) (key : string) :
  key ≠ "scheduling" → key ≠ "annotations" → key ≠ "nodeId" →
  setScheduling data !! key = data !! key.
Proof.
  intros H1 H2 H3. unfold setScheduling.
  destruct (negb _).
  - rewrite setState_lookup_ne by done. by apply PutValue_lookup_ne.
  - by apply PutValue_lookup_ne.
Qed.

Lemma setStrategy_lookup_ne (data : gmap string value) (key : string) :
  key ≠ "deploymentConfig" → setStrategy data !! key = data !! key.
Proof.
  intros Hne. unfold setStrategy.
  destruct (GetValue _ _); [|done].
  destruct (String.eqb _ _); [|done].
  by rewrite !RemoveValue_lookup_ne.
Qed.

(** The passes that run before [setPorts] in [Create]. *)
Lemma before_setPorts_lookup_ne (schemaID : string)
  (data : gmap string value) (key : string) :
  key ∈ ["containers"; "name"; "scheduling"] →
  setSecrets (setWorkloadSpecificDefaults schemaID (setSelector schemaID data))
    !! key = data !! key.
Proof.
  intros Hkey.
  rewrite setSecrets_lookup_ne, setWorkloadSpecificDefaults_lookup_ne,
    setSelector_lookup_ne; [done|..];
    intros ->; repeat (apply elem_of_cons in Hkey as [?|Hkey]; [done|]);
    by apply elem_of_nil in Hkey.
Qed.









(** When the node lookup fails, [setScheduling] writes the empty string
    over a node identifier that was given. *)
Lemma setScheduling_lookup_fails (data : gmap string value) :
  ToString (GetValueN data nodeIdPath) ≠ "" →
  nodeByID (ToString (GetValueN data nodeIdPath)) = None →
  GetValueN (setScheduling data) nodeIdPath = Some (VStr "").
Proof.
  intros Hne Hlookup. unfold setScheduling, getNodeName.
  fold nodeIdPath. rewrite Hlookup.
  destruct (String.eqb_spec (ToString (GetValueN data nodeIdPath)) "");
    [done|]. simpl negb. cbv iota.
  unfold GetValueN in *.
  set (data1 := PutValue data (VStr "") nodeIdPath).
  transitivity (GetValue data1 nodeIdPath).
  - apply GetValue_head. by apply setState_lookup_ne.
  - apply GetValue_PutValue.
    destruct (GetValue data nodeIdPath); [by eexists | done].
Qed.

Lemma setStrategy_nodeId (data : gmap string value) :
  GetValueN (setStrategy data) nodeIdPath = GetValueN data nodeIdPath.
Proof. apply GetValue_head. by apply setStrategy_lookup_ne. Qed.

End passes_facts.

(** ** Identifiers *)

Lemma Split_second_None (id : string) :
  Split id ":" !! 1%nat = None ↔ Count id ":" = 0%nat.
Proof.
  rewrite lookup_ge_None, Split_length. lia.
Qed.

Lemma Count_app (s t : string) (sep : ascii) :
  Count (s +:+ t) sep = (Count s sep + Count t sep)%nat.
Proof.
  induction s as [|c s IH]; simpl; [done|].
  destruct (Ascii.eqb c sep); simpl; by rewrite IH.
Qed.

(** A string with a separator splits at the first one. *)
Lemma Split_first (s : string) (sep : ascii) (n : nat) :
  Count s sep = S n →
  ∃ piece rest,
    s = piece +:+ String sep rest
    ∧ Count piece sep = 0%nat
    ∧ Count rest sep = n
    ∧ Split s sep = piece :: Split rest sep.
Proof.
  induction s as [|c s IH]; simpl; [done|].
  destruct (Ascii.eqb_spec c sep) as [->|Hne].
  - intros [= Hn]. by exists "", s.
  - intros Hn. destruct (IH Hn) as (piece & rest & -> & Hp & Hr & Hsplit).
    exists (String c piece), rest. simpl.
    destruct (Ascii.eqb_spec c sep); [done|]. by rewrite Hsplit.
Qed.

Lemma Split_no_separator (s : string) (sep : ascii) :
  Count s sep = 0%nat → Split s sep = [s].
Proof.
  induction s as [|c s IH]; simpl; [done|].
  destruct (Ascii.eqb c sep); [done|]. intros Hn. by rewrite IH.
Qed.

(** ** The store entry points *)

Section entry_points.
Context `{Collaborators} {S : Type} `{Store S}.



(** C7, as the code has it: when a node identifier is given and the node
    lookup returns an error, the name is taken to be empty and
    scheduling.node.nodeId is overwritten with the empty string, in the
    document [Create] and [Update] hand to the wrapped store. *)
Theorem C7_lookup_error_writes_empty_node (schemaID : string)
  (data : gmap string value) (id : string) (s : S) :
  ToString (GetValueN data nodeIdPath) ≠ "" →
  nodeByID (ToString (GetValueN data nodeIdPath)) = None →
  getNodeName (ToString (GetValueN data nodeIdPath)) = ""
  ∧ GetValueN (setScheduling data) nodeIdPath = Some (VStr "")
  ∧ (∀ data', createPasses schemaID data = (data', None) →
       Create schemaID data s = store_Create schemaID data' s
       ∧ GetValueN data' nodeIdPath = Some (VStr ""))
  ∧ (∀ workloadName data',
       Split id ":" !! 1%nat = Some workloadName →
       updatePasses workloadName data = (data', None) →
       Update schemaID data id s
       = Returned (store_Update schemaID data' id s)
       ∧ GetValueN data' nodeIdPath = Some (VStr "")).
Proof.
  intros Hne Hlookup. split_and!.
  - unfold getNodeName. by rewrite Hlookup.
  - by apply setScheduling_lookup_fails.
  - intros data' Hpasses. split; [unfold Create; by rewrite Hpasses|].
    revert Hpasses. unfold createPasses.
    set (data0 := setSecrets _).
    destruct (setPorts _ data0) as [data1 [err|]] eqn:Hports; [done|].
    intros [= <-]. rewrite setStrategy_nodeId.
    assert (data1 !! "scheduling" = data !! "scheduling") as Hsched.
    { replace data1 with (setPorts (ToString (data0 !! "name")) data0).1
        by by rewrite Hports.
      rewrite setPorts_lookup_ne by done.
      apply before_setPorts_lookup_ne. set_solver. }
    assert (GetValueN data1 nodeIdPath = GetValueN data nodeIdPath) as Hid
      by by apply GetValue_head.
    apply setScheduling_lookup_fails; by rewrite Hid.
  - intros w data' Hsplit Hpasses.
    split; [unfold Update; by rewrite Hsplit, Hpasses|].
    revert Hpasses. unfold updatePasses.
    destruct (setPorts w data) as [data1 [err|]] eqn:Hports; [done|].
    intros [= <-]. rewrite setStrategy_nodeId.
    assert (data1 !! "scheduling" = data !! "scheduling") as Hsched.
    { replace data1 with (setPorts w data).1 by by rewrite Hports.
      by rewrite setPorts_lookup_ne. }
    assert (GetValueN data1 nodeIdPath = GetValueN data nodeIdPath) as Hid
      by by apply GetValue_head.
    apply setScheduling_lookup_fails; by rewrite Hid.
Qed.

(** C8: [ByID] reads with the short identifier, the segment between the
    first two colons, when the identifier has more than one colon, and with
    the identifier itself otherwise. *)
Theorem C8_ByID_short_identifier (schemaID : string) (id : string) (s : S) :
  ((1 < Count id ":")%nat →
   ∃ type shortID rest,
     id = type +:+ ":" +:+ shortID +:+ ":" +:+ rest
     ∧ Count type ":" = 0%nat
     ∧ Count shortID ":" = 0%nat
     ∧ ByID schemaID id s = store_ByID schemaID shortID s)
  ∧ ((Count id ":" ≤ 1)%nat →
     ByID schemaID id s = store_ByID schemaID id s)
  ∧ ByID schemaID "deployment:web:extra" s = store_ByID schemaID "web" s.
Proof.
  split_and!; [| |done].
  - intros Hcount. unfold ByID, splitTypeAndID.
    destruct (Nat.ltb_spec 1 (Count id ":")) as [_|?]; [|lia].
    destruct (Count id ":") as [|[|n]] eqn:Hn; [lia..|].
    destruct (Split_first _ _ _ Hn) as (type & tail & -> & Htype & Htail & ->).
    destruct (Split_first _ _ _ Htail)
      as (shortID & rest & -> & Hshort & _ & ->).
    by exists type, shortID, rest.
  - intros Hcount. unfold ByID.
    destruct (Nat.ltb_spec 1 (Count id ":")) as [?|_]; [lia | done].
Qed.

(** C9: [Update] indexes the second segment of the identifier unchecked:
    it panics exactly on the identifiers without a colon. *)
Theorem C9_Update_panics_without_colon (schemaID : string)
  (data : gmap string value) (id : string) (s : S) :
  (Update schemaID data id s = Panicked ↔ Count id ":" = 0%nat)
  ∧ (Count id ":" = 0%nat → Split id ":" = [id])
  ∧ (Count id ":" ≠ 0%nat →
     ∃ workloadName,
       Split id ":" !! 1%nat = Some workloadName
       ∧ Update schemaID data id s
         = Returned
             match updatePasses workloadName data with
             | (_, Some err) => (inr err, s)
             | (data', None) => store_Update schemaID data' id s
             end).
Proof.
  split_and!.
  - rewrite <- Split_second_None. unfold Update.
    destruct (Split id ":" !! 1%nat); split; done.
  - apply Split_no_separator.
  - intros Hcolon. unfold Update.
    destruct (Split id ":" !! 1%nat) as [w|] eqn:Hsplit;
      [by exists w | by apply Split_second_None in Hsplit].
Qed.

End entry_points.

(** ** Leaving [setPorts] with an error *)

Section abort.
Context `{Collaborators}.

(** C10: when [setPorts] returns the duplicate-name error, the document
    keeps what the loops did before: the containers in front of the failing
    one and the ports in front of the failing port have been through the
    loop body (name stored, DNS name possibly computed anew); the failing
    port and everything behind it are as they were. *)
Theorem C10_mutations_survive_error (w : string)
  (data data' : gmap string value) (err : APIError) :
  setPorts w data = (data', Some err) →
  ∃ before cMap after done port rest before' done',
    data !! "containers" = Some (VList (before ++ VMap cMap :: after))
    ∧ cMap !! "ports" = Some (VList (done ++ VMap port :: rest))
    ∧ err = duplicatedPort port
    ∧ Forall2 (containerProcessed w) before before'
    ∧ Forall2 (portProcessed w) done done'
    ∧ data'
      = <["containers" :=
            VList (before'
                     ++ VMap (<["ports" := VList (done' ++ VMap port :: rest)]>
                                cMap)
                     :: after)]> data.
Proof.
  unfold setPorts. simpl.
  destruct (data !! "containers") as [[| | |cs| |]|] eqn:Hcs; try done.
  destruct (setPorts_containers w cs) as [cs' e] eqn:Hrun.
  intros [= <- ->].
  apply setPorts_containers_err in Hrun
    as (before & c & after & before' & c' & -> & Hbefore & Hc & ->).
  apply setPorts_container_err in Hc
    as (cMap & done & port & rest & done' & -> & Hps & -> & _ & Hdone & ->).
  apply setPorts_containers_ok in Hbefore as [Hbefore _].
  apply setPorts_ports_ok in Hdone as (_ & _ & Hdone).
  by exists before, cMap, after, done, port, rest, before', done'.
Qed.

End abort.

(** ** Concrete runs *)

Section runs.
Local Existing Instance quietCollaborators.
Local Existing Instance logStore.



Example Create_twice8080 :
  Create "deployment" twice8080 []
  = (inr (NewAPIError InvalidOption
            "Duplicated port kind=<nil>, conainerPort=8080, protcol=TCP"),
     []).
Proof. vm_compute. reflexivity. Qed.


(** C3 does not hold as stated.  For the workload "web", the DNS name
    "custom" is not empty, is not "web" and does not begin with "web-", and
    it stays; the DNS name "web-nodeport" begins with "web-", and it is
    replaced. *)
Lemma C3_counterexample :
  (ToString (customDNS !! "dnsName") ≠ ""
   ∧ EqualFold (ToString (customDNS !! "dnsName")) "web" = false
   ∧ HasPrefix (ToString (customDNS !! "dnsName")) "web-" = false
   ∧ ∃ used' port',
       setPort "web" ∅ customDNS = inr (used', port')
       ∧ port' !! "dnsName" = customDNS !! "dnsName")
  ∧ (HasPrefix (ToString (staleDNS !! "dnsName")) "web-" = true
     ∧ ∃ used' port',
         setPort "web" ∅ staleDNS = inr (used', port')
         ∧ port' !! "dnsName" = Some (VStr "web")
         ∧ port' !! "dnsName" ≠ staleDNS !! "dnsName").
Proof.
  split.
  - split_and!; [vm_compute; discriminate | reflexivity | reflexivity |].
    eexists _, _. split; vm_compute; reflexivity.
  - split; [reflexivity|].
    eexists _, _. split_and!; [vm_compute; reflexivity | vm_compute; reflexivity
                               | vm_compute; discriminate].
Qed.

Lemma C3_witness :
  ∃ used' port',
    setPort "web" ∅ staleDNS = inr (used', port')
    ∧ generateDNSName "web" (ToString (staleDNS !! "dnsName")) = true
    ∧ (port' !! "dnsName" = Some (VStr "web")
       ∨ port' !! "dnsName" = Some (VStr "web-clusterip")).
Proof.
  destruct (setPort "web" ∅ staleDNS) as [err|[used' port']] eqn:Hrun;
    [vm_compute in Hrun; discriminate|].
  exists used', port'. split_and!; [reflexivity | reflexivity |].
  destruct (C3_dns_name_regeneration _ _ _ _ _ Hrun) as (_ & Hnew & _).
  exact (Hnew eq_refl).
Defined.

Lemma C4_witness :
  (∃ used' port',
      setPort "web" ∅ clusterIPPort = inr (used', port')
      ∧ port' !! "dnsName" = Some (VStr "web"))
  ∧ (∃ used' port',
        setPort "web" ∅ nodePortPort = inr (used', port')
        ∧ port' !! "dnsName" = Some (VStr "web-nodeport")).
Proof.
  split.
  - destruct (setPort "web" ∅ clusterIPPort) as [err|[used' port']] eqn:Hrun;
      [vm_compute in Hrun; discriminate|].
    exists used', port'. split; [reflexivity|].
    destruct (C4_dns_name_value _ _ _ _ _ Hrun eq_refl) as [Hcluster _].
    exact (Hcluster eq_refl).
  - destruct (setPort "web" ∅ nodePortPort) as [err|[used' port']] eqn:Hrun;
      [vm_compute in Hrun; discriminate|].
    exists used', port'. split; [reflexivity|].
    destruct (C4_dns_name_value _ _ _ _ _ Hrun eq_refl) as [_ Hother].
    rewrite Hother; [reflexivity | vm_compute; discriminate].
Defined.



(** C6 does not hold as stated.  A container port below 65536 that is
    negative, and a source port that is no port number, both give derived
    names of more than 15 characters, with a known protocol and a known
    kind. *)
Lemma C6_counterexample :
  (IsEmpty (negativePort !! "name") = true
   ∧ negativePort !! "containerPort" = Some (VNum (-1000000000000))
   ∧ -1000000000000 < 65536
   ∧ negativePort !! "protocol" = Some (VStr "TCP")
   ∧ negativePort !! "kind" = Some (VStr "NodePort")
   ∧ portName negativePort = "-1000000000000tcp1"
   ∧ (15 < String.length (portName negativePort))%nat)
  ∧ (IsEmpty (longSourcePort !! "name") = true
     ∧ longSourcePort !! "containerPort" = Some (VNum 8080)
     ∧ longSourcePort !! "protocol" = Some (VStr "TCP")
     ∧ longSourcePort !! "kind" = Some (VStr "NodePort")
     ∧ portName longSourcePort = "8080tcp30000300011"
     ∧ (15 < String.length (portName longSourcePort))%nat).
Proof. split; split_and!; vm_compute; (reflexivity || lia). Qed.

Lemma C6_witness :
  IsEmpty (widestPort !! "name") = true
  ∧ portName widestPort = "65535sctp655353"
  ∧ (String.length (portName widestPort) ≤ 15)%nat.
Proof.
  split_and!; [reflexivity | vm_compute; reflexivity |].
  apply (C6_derived_name_length widestPort 65535 "SCTP");
    [reflexivity | reflexivity | lia | reflexivity | |].
  - unfold knownProtocols. apply list_elem_of_further, list_elem_of_further,
      list_elem_of_here.
  - right. exists 65535. split; [reflexivity | lia].
Defined.

(** C7 does not hold as stated.  A workload pinned to node "c-1:m-1" while
    the node lookup fails: [Create] succeeds and the stored document has the
    empty string under scheduling.node.nodeId. *)
Lemma C7_counterexample :
  GetValueN pinned nodeIdPath = Some (VStr "c-1:m-1")
  ∧ nodeByID "c-1:m-1" = None
  ∧ ∃ data',
      Create "deployment" pinned [] = (inl data', [data'])
      ∧ GetValueN data' nodeIdPath = Some (VStr "")
      ∧ GetValueN data' nodeIdPath ≠ GetValueN pinned nodeIdPath.
Proof.
  split_and!; [reflexivity | reflexivity |].
  eexists. split_and!; [vm_compute; reflexivity | vm_compute; reflexivity |].
  vm_compute. discriminate.
Qed.

Lemma C7_witness :
  ToString (GetValueN pinned nodeIdPath) ≠ ""
  ∧ nodeByID (ToString (GetValueN pinned nodeIdPath)) = None
  ∧ GetValueN (setScheduling pinned) nodeIdPath = Some (VStr "").
Proof.
  assert (ToString (GetValueN pinned nodeIdPath) ≠ "") as Hne
    by (vm_compute; discriminate).
  split_and!; [exact Hne | reflexivity |].
  destruct (C7_lookup_error_writes_empty_node "deployment" pinned
              "deployment:web" [] Hne eq_refl) as (_ & Hset & _).
  exact Hset.
Defined.

Lemma C10_witness :
  ∃ data' err,
    setPorts "web" lateDuplicate = (data', Some err)
    ∧ (∃ port, err = duplicatedPort port)
    ∧ portField lateDuplicate 0 0 "name" = None
    ∧ portField data' 0 0 "name" = Some (VStr "8080tcp0")
    ∧ portField data' 0 0 "dnsName" = Some (VStr "web-")
    ∧ portField lateDuplicate 1 1 "name" = None
    ∧ portField data' 1 1 "name" = Some (VStr "8080tcp0")
    ∧ portField data' 1 2 "name" = None.
Proof.
  destruct (setPorts "web" lateDuplicate) as [data' [err|]] eqn:Hrun;
    [|vm_compute in Hrun; discriminate].
  exists data', err. split; [reflexivity|].
  split.
  - destruct (C10_mutations_survive_error _ _ _ _ Hrun)
      as (_ & _ & _ & _ & port & _ & _ & _ & _ & _ & Herr & _).
    by exists port.
  - assert (data' = (setPorts "web" lateDuplicate).1) as ->
      by (by rewrite Hrun).
    split_and!; vm_compute; reflexivity.
Defined.

Lemma C8_witness :
  (1 < Count "deployment:web:extra" ":")%nat
  ∧ ByID "deployment" "deployment:web:extra" []
    = store_ByID "deployment" "web" [].
Proof.
  split; [vm_compute; lia|].
  destruct (C8_ByID_short_identifier "deployment" "deployment:web:extra" [])
    as (_ & _ & Hexample).
  exact Hexample.
Defined.

Lemma C9_witness :
  Count "web" ":" = 0%nat
  ∧ Update "deployment" httpInTwoContainers "web" [] = Panicked.
Proof.
  split; [reflexivity|].
  destruct (C9_Update_panics_without_colon "deployment" httpInTwoContainers
              "web" []) as ([_ Hpanic] & _).
  exact (Hpanic eq_refl).
Defined.

End runs.

(** ** The rollout strategy and the defaults *)

Section strategy_facts.
Context `{Collaborators}.

Lemma GetValue_two (data : gmap string value) (key1 key2 : string) :
  GetValue data [key1; key2]
  = match data !! key1 with
    | Some (VMap m) => m !! key2
    | _ => None
    end.
Proof. done. Qed.

Lemma RemoveValue_two (data m : gmap string value) (key1 key2 : string) :
  data !! key1 = Some (VMap m) →
  RemoveValue data [key1; key2] = <[key1 := VMap (delete key2 m)]> data.
Proof. intros Hm. simpl. by rewrite Hm. Qed.

(** What [setStrategy] does to a document whose strategy is "Recreate". *)
Lemma setStrategy_Recreate (data config : gmap string value) :
  data !! "deploymentConfig" = Some (VMap config) →
  ToString (config !! "strategy") = "Recreate" →
  setStrategy data
  = <["deploymentConfig" :=
        VMap (delete "maxUnavailable" (delete "maxSurge" config))]> data.
Proof.
  intros Hconfig Hstrategy. unfold setStrategy.
  rewrite GetValue_two, Hconfig.
  destruct (config !! "strategy") as [strategy|] eqn:Hs;
    [|cbv in Hstrategy; discriminate].
  rewrite Hstrategy. simpl String.eqb. cbv iota.
  rewrite (RemoveValue_two data config) by done.
  rewrite (RemoveValue_two _ (delete "maxSurge" config))
    by by rewrite lookup_insert_eq.
  by rewrite insert_insert_eq.
Qed.

(** [setStrategy] on "Recreate": maxSurge and maxUnavailable are gone, every
    other field of deploymentConfig and of the document stays. *)
Theorem setStrategy_Recreate_removes (data : gmap string value) :
  ToString (GetValue data ["deploymentConfig"; "strategy"]) = "Recreate" →
  GetValue (setStrategy data) ["deploymentConfig"; "maxSurge"] = None
  ∧ GetValue (setStrategy data) ["deploymentConfig"; "maxUnavailable"] = None
  ∧ (∀ field, field ≠ "maxSurge" → field ≠ "maxUnavailable" →
       GetValue (setStrategy data) ["deploymentConfig"; field]
       = GetValue data ["deploymentConfig"; field])
  ∧ (∀ key, key ≠ "deploymentConfig" →
       setStrategy data !! key = data !! key).
Proof.
  intros Hstrategy. rewrite GetValue_two in Hstrategy.
  destruct (data !! "deploymentConfig") as [[| | | |config|]|] eqn:Hconfig;
    try done.
  rewrite (setStrategy_Recreate data config) by done.
  split_and!.
  - rewrite GetValue_two, lookup_insert_eq.
    by rewrite lookup_delete_ne, lookup_delete_eq.
  - rewrite GetValue_two, lookup_insert_eq. by rewrite lookup_delete_eq.
  - intros field H1 H2. rewrite !GetValue_two, lookup_insert_eq, Hconfig.
    by rewrite !lookup_delete_ne.
  - intros key Hkey. by rewrite lookup_insert_ne.
Qed.

(** [setStrategy] leaves the document as it is for any other strategy, and
    when there is none. *)
Theorem setStrategy_other_strategy (data : gmap string value) :
  ToString (GetValue data ["deploymentConfig"; "strategy"]) ≠ "Recreate" →
  setStrategy data = data.
Proof.
  intros Hstrategy. unfold setStrategy.
  destruct (GetValue data _) as [strategy|]; [|done].
  by destruct (String.eqb_spec (ToString (Some strategy)) "Recreate").
Qed.

(** Running [setStrategy] a second time changes nothing. *)
Theorem setStrategy_idempotent (data : gmap string value) :
  setStrategy (setStrategy data) = setStrategy data.
Proof.
  destruct (String.eqb_spec
              (ToString (GetValue data ["deploymentConfig"; "strategy"]))
              "Recreate") as [Hrecreate|Hother].
  - pose proof Hrecreate as Hstrategy. rewrite GetValue_two in Hstrategy.
    destruct (data !! "deploymentConfig") as [[| | | |config|]|] eqn:Hconfig;
      try done.
    rewrite (setStrategy_Recreate data config) by done.
    rewrite (setStrategy_Recreate _
               (delete "maxUnavailable" (delete "maxSurge" config))).
    + rewrite insert_insert_eq. f_equal. f_equal.
      apply map_eq. intros key.
      destruct (decide (key = "maxUnavailable")) as [->|H1];
        [by rewrite !lookup_delete_eq|].
      destruct (decide (key = "maxSurge")) as [->|H2].
      * rewrite !(lookup_delete_ne _ "maxUnavailable" "maxSurge") by done.
        by rewrite !lookup_delete_eq.
      * by rewrite !lookup_delete_ne.
    + by rewrite lookup_insert_eq.
    + rewrite !lookup_delete_ne by done. exact Hstrategy.
  - rewrite (setStrategy_other_strategy data Hother).
    by apply setStrategy_other_strategy.
Qed.

(** The schema identifiers [isJob] holds for. *)
Lemma isJob_true (schemaID : string) :
  isJob schemaID = true
  ↔ ToLower schemaID = "job" ∨ ToLower schemaID = "cronjob".
Proof.
  unfold isJob, EqualFold. rewrite orb_true_iff, !String.eqb_eq. done.
Qed.

(** [setWorkloadSpecificDefaults]: a job or cron job, in any case of the
    letters, has a restart policy afterwards, its own if it had one and
    "OnFailure" otherwise; any other workload is left as it is; no other
    field is ever touched. *)
Theorem setWorkloadSpecificDefaults_restartPolicy (schemaID : string)
  (data : gmap string value) :
  (ToLower schemaID = "job" ∨ ToLower schemaID = "cronjob" →
   setWorkloadSpecificDefaults schemaID data !! "restartPolicy"
   = Some (default (VStr "OnFailure") (data !! "restartPolicy")))
  ∧ (ToLower schemaID ≠ "job" → ToLower schemaID ≠ "cronjob" →
     setWorkloadSpecificDefaults schemaID data = data)
  ∧ (∀ key, key ≠ "restartPolicy" →
       setWorkloadSpecificDefaults schemaID data !! key = data !! key).
Proof.
  split_and!.
  - intros Hjob%isJob_true. unfold setWorkloadSpecificDefaults.
    rewrite Hjob. destruct (data !! "restartPolicy") eqn:Hpolicy; [done|].
    by rewrite lookup_insert_eq.
  - intros H1 H2. unfold setWorkloadSpecificDefaults.
    destruct (isJob schemaID) eqn:Hjob; [|done].
    apply isJob_true in Hjob. tauto.
  - intros key Hkey. by apply setWorkloadSpecificDefaults_lookup_ne.
Qed.

End strategy_facts.

(** ** The selector and the image-pull secrets *)

Section selector_facts.
Context `{Collaborators}.

Lemma IsEmpty_singleton_map (key : string) (v : value) :
  IsEmpty (Some (VMap {[key := v]})) = false.
Proof. simpl. by rewrite map_to_list_singleton. Qed.

(** What [setSelector] does when it assigns a selector. *)
Lemma setSelector_assigns (schemaID : string) (data : gmap string value) :
  IsEmpty (data !! "selector") = true → isJob schemaID = false →
  let workloadID := VStr (resolveWorkloadID schemaID data) in
  setSelector schemaID data
  = <["labels" :=
        VMap (<[SelectorLabel := workloadID]>
                (default ∅ (ToMapInterface (data !! "labels"))))]>
      (<["workloadLabels" :=
           VMap (<[SelectorLabel := workloadID]>
                   (default ∅ (ToMapInterface (data !! "workloadLabels"))))]>
         (<["selector" :=
              VMap {["matchLabels" := VMap {[SelectorLabel := workloadID]}]}]>
            data)).
Proof.
  intros Hempty Hjob. unfold setSelector. rewrite Hempty, Hjob. simpl.
  by rewrite !lookup_insert_ne.
Qed.

(** [setSelector] on a workload that is no job and has no selector: the
    workload identifier is stored under the selector label in the selector,
    in the workload labels and in the labels; the labels and workload
    labels the document came with are all kept; no other field changes. *)
Theorem setSelector_sets_selector_and_labels (schemaID : string)
  (data : gmap string value) :
  IsEmpty (data !! "selector") = true → isJob schemaID = false →
  let workloadID := VStr (resolveWorkloadID schemaID data) in
  let data' := setSelector schemaID data in
  GetValue data' ["selector"; "matchLabels"; SelectorLabel] = Some workloadID
  ∧ GetValue data' ["workloadLabels"; SelectorLabel] = Some workloadID
  ∧ GetValue data' ["labels"; SelectorLabel] = Some workloadID
  ∧ (∀ label, label ≠ SelectorLabel →
       GetValue data' ["labels"; label] = GetValue data ["labels"; label]
       ∧ GetValue data' ["workloadLabels"; label]
         = GetValue data ["workloadLabels"; label])
  ∧ (∀ key, key ≠ "selector" → key ≠ "workloadLabels" → key ≠ "labels" →
       data' !! key = data !! key).
Proof.
  intros Hempty Hjob. cbv zeta.
  split_and!.
  - rewrite setSelector_assigns by done. simpl.
    rewrite lookup_insert_ne, lookup_insert_ne, lookup_insert_eq by done.
    by rewrite lookup_singleton_eq, lookup_singleton_eq.
  - rewrite setSelector_assigns by done. simpl.
    rewrite lookup_insert_ne, lookup_insert_eq by done.
    by rewrite lookup_insert_eq.
  - rewrite setSelector_assigns by done. simpl.
    by rewrite !lookup_insert_eq.
  - intros label Hlabel.
    rewrite setSelector_assigns by done. rewrite !GetValue_two.
    rewrite lookup_insert_eq.
    rewrite (lookup_insert_ne _ "labels" "workloadLabels") by done.
    rewrite lookup_insert_eq, !lookup_insert_ne by done.
    split.
    + by destruct (data !! "labels") as [[]|].
    + by destruct (data !! "workloadLabels") as [[]|].
  - intros key H1 H2 H3. by apply setSelector_lookup_ne.
Qed.

(** [setSelector] leaves a job, a cron job and a workload that has a
    selector as they are. *)
Theorem setSelector_keeps_selector (schemaID : string)
  (data : gmap string value) :
  IsEmpty (data !! "selector") = false ∨ isJob schemaID = true →
  setSelector schemaID data = data.
Proof.
  intros Hkeep. unfold setSelector.
  destruct Hkeep as [-> | ->]; [done|]. by rewrite andb_false_r.
Qed.

(** Running [setSelector] a second time changes nothing. *)
Theorem setSelector_idempotent (schemaID : string)
  (data : gmap string value) :
  setSelector schemaID (setSelector schemaID data)
  = setSelector schemaID data.
Proof.
  destruct (IsEmpty (data !! "selector")) eqn:Hempty;
    [destruct (isJob schemaID) eqn:Hjob|].
  - by rewrite !(setSelector_keeps_selector schemaID) by auto.
  - apply setSelector_keeps_selector. left.
    rewrite setSelector_assigns by done. simpl.
    rewrite lookup_insert_ne, lookup_insert_ne, lookup_insert_eq by done.
    apply IsEmpty_singleton_map.
  - by rewrite !(setSelector_keeps_selector schemaID data) by auto.
Qed.



(** [setSecrets] either leaves the document as it is or stores a list of
    secrets that is not empty, and this only where the document had none;
    no other field changes. *)
Theorem setSecrets_stores_nonempty (data : gmap string value) :
  (setSecrets data = data
   ∨ ∃ secret secrets,
       data !! "imagePullSecrets" = None
       ∧ setSecrets data
         = <["imagePullSecrets" := VSecrets (secret :: secrets)]> data)
  ∧ (∀ key, key ≠ "imagePullSecrets" → setSecrets data !! key = data !! key).
Proof.
  split; [|intros key Hkey; by apply setSecrets_lookup_ne].
  unfold setSecrets. simpl GetValue.
  destruct (data !! "imagePullSecrets") as [old|] eqn:Hold; [by left|].
  destruct (GetSlice data ["containers"]) as [|c cs]; [by left|].
  destruct (fold_left _ _ _) as [|secret secrets]; [by left|].
  right. by exists secret, secrets.
Qed.

(** [getDomain]: no image has the domain "docker.io"; an image of that
    registry has the domain "index.docker.io", an image that does not parse
    the empty domain, and any other image the domain it names. *)
Theorem getDomain_never_docker_io (image : string) :
  getDomain image ≠ "docker.io"
  ∧ (parseDomain image = Some "docker.io" →
     getDomain image = "index.docker.io")
  ∧ (parseDomain image = None → getDomain image = "")
  ∧ (∀ domain, parseDomain image = Some domain → domain ≠ "docker.io" →
               getDomain image = domain).
Proof.
  unfold getDomain. split_and!.
  - destruct (parseDomain image) as [domain|]; [|done].
    by destruct (String.eqb_spec domain "docker.io").
  - by intros ->.
  - by intros ->.
  - intros domain -> Hne. by destruct (String.eqb_spec domain "docker.io").
Qed.

Lemma getCreds_namespaced_fold (namespaceID : string)
  (namespacedCreds : list (string * Registries * string))
  (domainToCreds : gmap string (list string)) :
  fold_left
    (fun acc '(NamespaceId, registries, Name) =>
       if String.eqb NamespaceId namespaceID
       then storeRegistries registries acc Name else acc)
    namespacedCreds domainToCreds
  = fold_left
      (fun acc '(_, registries, Name) => storeRegistries registries acc Name)
      (List.filter (fun '(NamespaceId, _, _) =>
                      String.eqb NamespaceId namespaceID) namespacedCreds)
      domainToCreds.
Proof.
  revert domainToCreds.
  induction namespacedCreds as [|[[NamespaceId registries] Name] rest IH];
    intros domainToCreds; simpl; [done|].
  destruct (String.eqb NamespaceId namespaceID); simpl; apply IH.
Qed.

(** [getCreds]: the namespaced credentials of other namespaces do not
    count, and a listing that fails counts as an empty one. *)
Theorem getCreds_namespace (namespaceID : string) :
  getCreds namespaceID
  = fold_left
      (fun acc '(registries, Name) => storeRegistries registries acc Name)
      (default [] listDockerCredentials)
      (fold_left
         (fun acc '(_, registries, Name) => storeRegistries registries acc Name)
         (List.filter (fun '(NamespaceId, _, _) =>
                         String.eqb NamespaceId namespaceID)
            (default [] listNamespacedDockerCredentials))
         ∅).
Proof.
  unfold getCreds.
  destruct listDockerCredentials as [creds|];
    destruct listNamespacedDockerCredentials as [namespacedCreds|];
    simpl; try done; [f_equal|]; apply getCreds_namespaced_fold.
Qed.

End selector_facts.

(** ** The scheduling state *)

Section scheduling_facts.
Context `{Collaborators}.

Lemma PutValue_two (data : gmap string value) (val : value)
  (key1 key2 : string) :
  PutValue data val [key1; key2]
  = match data !! key1 with
    | Some (VMap m) => <[key1 := VMap (<[key2 := val]> m)]> data
    | Some _ => data
    | None => <[key1 := VMap (<[key2 := val]> ∅)]> data
    end.
Proof. done. Qed.

(** [setState] then [getState]: when the state encodes and the annotations
    can be written through, the encoded state is stored under the state
    annotation and [getState] decodes that text; the other annotations are
    kept. *)
Theorem setState_then_getState (data : gmap string value)
  (stateMap : gmap string string) (content : string) :
  annotationsWritable data →
  jsonMarshal stateMap = Some content →
  GetValue (setState data stateMap) stateAnnotation = Some (VStr content)
  ∧ getState (setState data stateMap) = jsonUnmarshal content
  ∧ (∀ key, key ≠ "workload.cattle.io/state" →
       GetValue (setState data stateMap) ["annotations"; key]
       = GetValue data ["annotations"; key])
  ∧ (∀ key, key ≠ "annotations" →
       setState data stateMap !! key = data !! key).
Proof.
  intros Hwritable Hcontent.
  assert (GetValue (setState data stateMap) stateAnnotation
          = Some (VStr content)) as Hstored.
  { unfold setState, stateAnnotation. rewrite Hcontent, PutValue_two.
    destruct Hwritable as [Hnone | [annotations Hsome]].
    - rewrite Hnone, GetValue_two, lookup_insert_eq.
      by rewrite lookup_insert_eq.
    - rewrite Hsome, GetValue_two, lookup_insert_eq.
      by rewrite lookup_insert_eq. }
  split_and!; [done | | |].
  - unfold getState. by rewrite Hstored.
  - intros key Hkey. unfold setState, stateAnnotation.
    rewrite Hcontent, PutValue_two, !GetValue_two.
    destruct Hwritable as [Hnone | [annotations Hsome]].
    + rewrite Hnone, lookup_insert_eq. by rewrite lookup_insert_ne.
    + rewrite Hsome, lookup_insert_eq. by rewrite lookup_insert_ne.
  - intros key Hkey. by apply setState_lookup_ne.
Qed.

(** [setState] gives up without a trace: when the state does not encode,
    or when "annotations" holds something that is not a map, the document
    is left as it is. *)
Theorem setState_gives_up (data : gmap string value)
  (stateMap : gmap string string) :
  jsonMarshal stateMap = None ∨ ¬ annotationsWritable data →
  setState data stateMap = data.
Proof.
  intros Hcase. unfold setState, stateAnnotation.
  destruct (jsonMarshal stateMap) as [content|]; [|done].
  destruct Hcase as [[=] | Hblocked]. rewrite PutValue_two.
  destruct (data !! "annotations") as [[| | | |annotations|]|] eqn:Ha;
    try done; destruct Hblocked; [right; by eexists | by left].
Qed.


(** [setScheduling] without a node identifier: the top-level "nodeId" is
    set to the empty string and nothing else changes; no node is looked
    up and no state is written. *)
Theorem setScheduling_without_node (data : gmap string value) :
  ToString (GetValueN data nodeIdPath) = "" →
  setScheduling data !! "nodeId" = Some (VStr "")
  ∧ (∀ key, key ≠ "nodeId" → setScheduling data !! key = data !! key).
Proof.
  intros Hnone. unfold setScheduling. fold nodeIdPath. rewrite Hnone.
  simpl. split; [by rewrite lookup_insert_eq|].
  intros key Hkey. by rewrite lookup_insert_ne.
Qed.

End scheduling_facts.

(** ** More on [setPorts] *)

Section setPorts_facts.
Context `{Collaborators}.





Lemma setPort_other_fields (w : string) (used used' : gset string)
  (port port' : gmap string value) (field : string) :
  setPort w used port = inr (used', port') →
  field ≠ "name" → field ≠ "dnsName" →
  port' !! field = port !! field.
Proof.
  intros (_ & _ & ->)%setPort_inr Hname Hdns.
  rewrite setDNSName_lookup_ne by done. by rewrite lookup_insert_ne.
Qed.

Lemma setPorts_ports_other_fields (w : string) (field : string)
  (ports : list value) :
  field ≠ "name" → field ≠ "dnsName" →
  ∀ used ports' err j,
    setPorts_ports w used ports = (ports', err) →
    fieldOf ports' j field = fieldOf ports j field.
Proof.
  intros Hname Hdns.
  induction ports as [|p rest IH]; intros used ports' err j Hrun;
    simpl in Hrun.
  - by injection Hrun as <- <-.
  - destruct (EncodeToMap p) as [port|] eqn:Hp.
    + pose proof (EncodeToMap_Some _ _ Hp) as ->.
      destruct (setPort w used port) as [e|[used1 port1]] eqn:Hport.
      * by injection Hrun as <- <-.
      * destruct (setPorts_ports w used1 rest) as [rest' e] eqn:Hrest.
        injection Hrun as <- <-. destruct j as [|j].
        -- unfold fieldOf. simpl. by eapply setPort_other_fields.
        -- unfold fieldOf in *. simpl. by eapply IH.
    + destruct (setPorts_ports w used rest) as [rest' e] eqn:Hrest.
      injection Hrun as <- <-. destruct j as [|j]; [done|].
      unfold fieldOf in *. simpl. by eapply IH.
Qed.

Lemma setPorts_container_other_fields (w : string) (field : string)
  (c c' : value) (err : option APIError) (j : nat) :
  field ≠ "name" → field ≠ "dnsName" →
  setPorts_container w c = (c', err) →
  (ports ← containerPorts c'; fieldOf ports j field)
  = (ports ← containerPorts c; fieldOf ports j field).
Proof.
  intros Hname Hdns. unfold setPorts_container.
  destruct c as [| | | |cMap|]; simpl; try by intros [= <- <-].
  destruct (cMap !! "ports") as [[| | |ports| |]|] eqn:Hports;
    try (intros [= <- <-]; simpl; by rewrite Hports).
  destruct (setPorts_ports w ∅ ports) as [ports' e] eqn:Hrun.
  intros [= <- <-]. simpl. rewrite lookup_insert_eq. simpl.
  by eapply setPorts_ports_other_fields.
Qed.

Lemma setPorts_containers_other_fields (w : string) (field : string)
  (cs : list value) (j : nat) :
  field ≠ "name" → field ≠ "dnsName" →
  ∀ cs' err i,
    setPorts_containers w cs = (cs', err) →
    (c ← cs' !! i; ports ← containerPorts c; fieldOf ports j field)
    = (c ← cs !! i; ports ← containerPorts c; fieldOf ports j field).
Proof.
  intros Hname Hdns.
  induction cs as [|c rest IH]; intros cs' err i Hrun; simpl in Hrun.
  - by injection Hrun as <- <-.
  - destruct (setPorts_container w c) as [c1 [e|]] eqn:Hc.
    + injection Hrun as <- <-. destruct i as [|i]; [|done]. simpl.
      by eapply setPorts_container_other_fields.
    + destruct (setPorts_containers w rest) as [rest' e] eqn:Hrest.
      injection Hrun as <- <-. destruct i as [|i]; simpl.
      * by eapply setPorts_container_other_fields.
      * by eapply IH.
Qed.

(** [setPorts] writes the "name" and the "dnsName" of ports and nothing
    else, whether it returns an error or not: any other field of any port
    and any other field of the document is as it was. *)
Theorem setPorts_writes_names_only (w : string) (data : gmap string value) :
  (∀ i j field, field ≠ "name" → field ≠ "dnsName" →
     portField (setPorts w data).1 i j field = portField data i j field)
  ∧ (∀ key, key ≠ "containers" → (setPorts w data).1 !! key = data !! key).
Proof.
  split; [|intros key Hkey; by apply setPorts_lookup_ne].
  intros i j field Hname Hdns. unfold portField, setPorts. simpl.
  destruct (data !! "containers") as [[| | |cs| |]|] eqn:Hcs;
    simpl; rewrite ?Hcs; try done.
  destruct (setPorts_containers w cs) as [cs' err] eqn:Hrun. simpl.
  rewrite lookup_insert_eq.
  by apply (setPorts_containers_other_fields w field cs j Hname Hdns
              cs' err i).
Qed.

End setPorts_facts.

(** ** Running [setPorts] again *)

Section again.
Context `{Collaborators}.












Lemma lowerByte_idempotent (c : ascii) :
  lowerByte (lowerByte c) = lowerByte c.
Proof. by destruct c as [[] [] [] [] [] [] [] []]. Qed.

Lemma ToLower_idempotent (s : string) : ToLower (ToLower s) = ToLower s.
Proof.
  induction s as [|c s IH]; simpl; [done|].
  by rewrite lowerByte_idempotent, IH.
Qed.

Lemma app_assoc_string (s t u : string) :
  (s +:+ t) +:+ u = s +:+ (t +:+ u).
Proof.
  induction s as [|c s IH]; [done|].
  change (String c ((s +:+ t) +:+ u) = String c (s +:+ (t +:+ u))).
  by rewrite IH.
Qed.

Lemma app_inj_length (s1 s2 t1 t2 : string) :
  s1 +:+ t1 = s2 +:+ t2 → String.length s1 = String.length s2 → s1 = s2.
Proof.
  revert s2. induction s1 as [|c s1 IH]; intros [|c2 s2]; simpl;
    try done.
  intros [= -> Hrest] [= Hlen]. f_equal. by apply IH.
Qed.

(** The DNS name [setPorts] generates is taken for a generated one on the
    next run when it is the bare workload name (kind "ClusterIP"), and
    otherwise exactly when the workload name is in lower case: the prefix
    test compares the case of the letters, the name was lower-cased. *)
Theorem generated_name_recognised (w : string) (port : gmap string value) :
  generateDNSName w (generatedDNSName w port) = true
  ↔ eqString (port !! "kind") "ClusterIP" = true ∨ ToLower w = w.
Proof.
  rewrite generateDNSName_true. unfold generatedDNSName.
  destruct (eqString (port !! "kind") "ClusterIP").
  - split; [by left|]. intros _. right; left. apply ToLower_idempotent.
  - set (kind := ToLower (ToString (port !! "kind"))). split.
    + intros [Hempty | [Hfold | [rest Hrest]]].
      * apply (f_equal String.length) in Hempty.
        rewrite !length_app in Hempty. simpl in Hempty. lia.
      * apply (f_equal String.length) in Hfold.
        rewrite !ToLower_length, !length_app, ToLower_length in Hfold.
        simpl in Hfold. lia.
      * right. rewrite app_assoc_string in Hrest.
        apply app_inj_length in Hrest; [done|]. apply ToLower_length.
    + intros [[=] | Hlower]. right; right. exists kind.
      by rewrite Hlower, app_assoc_string.
Qed.

End again.

(** ** What the passes of [Create] and [Update] leave alone *)

Section untouched.
Context `{Collaborators}.

(** [Update] runs the port, scheduling and strategy passes only: apart
    from "containers", "scheduling", "annotations", "nodeId" and
    "deploymentConfig" the document is as it was; no selector, label,
    restart policy or image-pull secret is ever added on update. *)
Theorem updatePasses_untouched (w : string) (data : gmap string value)
  (key : string) :
  key ∉ ["containers"; "scheduling"; "annotations"; "nodeId";
         "deploymentConfig"] →
  (updatePasses w data).1 !! key = data !! key.
Proof.
  intros Hkey. unfold updatePasses.
  assert ((setPorts w data).1 !! key = data !! key) as Hports
    by (apply setPorts_lookup_ne; set_solver).
  destruct (setPorts w data) as [data1 [err|]]; simpl in *; [done|].
  rewrite setStrategy_lookup_ne, setScheduling_lookup_ne; set_solver.
Qed.

(** The passes of [Create] leave the fields alone that none of them owns:
    the name, the namespace and the like. *)
Theorem createPasses_untouched (schemaID : string)
  (data : gmap string value) (key : string) :
  key ∉ ["selector"; "workloadLabels"; "labels"; "restartPolicy";
         "imagePullSecrets"; "containers"; "scheduling"; "annotations";
         "nodeId"; "deploymentConfig"] →
  (createPasses schemaID data).1 !! key = data !! key.
Proof.
  intros Hkey. unfold createPasses.
  set (data0 := setSecrets _).
  assert (data0 !! key = data !! key) as Hbefore.
  { unfold data0.
    rewrite setSecrets_lookup_ne, setWorkloadSpecificDefaults_lookup_ne,
      setSelector_lookup_ne; set_solver. }
  assert ((setPorts (ToString (data0 !! "name")) data0).1 !! key
          = data0 !! key) as Hports
    by (apply setPorts_lookup_ne; set_solver).
  destruct (setPorts _ data0) as [data1 [err|]]; simpl in *; [congruence|].
  rewrite setStrategy_lookup_ne, setScheduling_lookup_ne; [congruence|..];
    set_solver.
Qed.

(** A job or cron job that goes through the passes of [Create] without a
    port error has a restart policy: its own, or "OnFailure". *)
Theorem createPasses_job_restartPolicy (schemaID : string)
  (data data' : gmap string value) :
  ToLower schemaID = "job" ∨ ToLower schemaID = "cronjob" →
  createPasses schemaID data = (data', None) →
  data' !! "restartPolicy"
  = Some (default (VStr "OnFailure") (data !! "restartPolicy")).
Proof.
  intros Hjob. pose proof Hjob as Hjob'%isJob_true. unfold createPasses.
  set (data0 := setSecrets _).
  assert (data0 !! "restartPolicy"
          = Some (default (VStr "OnFailure") (data !! "restartPolicy")))
    as Hbefore.
  { unfold data0. rewrite setSecrets_lookup_ne by done.
    rewrite (setSelector_keeps_selector schemaID data) by auto.
    by apply setWorkloadSpecificDefaults_restartPolicy. }
  assert ((setPorts (ToString (data0 !! "name")) data0).1 !! "restartPolicy"
          = data0 !! "restartPolicy") as Hports
    by by apply setPorts_lookup_ne.
  destruct (setPorts _ data0) as [data1 [err|]]; simpl in *; [done|].
  intros [= <-].
  rewrite setStrategy_lookup_ne, setScheduling_lookup_ne by done.
  congruence.
Qed.

End untouched.

(** ** Reaching the wrapped store *)

Section reaching.
Context `{Collaborators} {S : Type} `{Store S}.


End reaching.

(** ** More concrete runs *)

Section more_runs.
Local Existing Instance quietCollaborators.
Local Existing Instance logStore.

Lemma setStrategy_Recreate_removes_witness :
  ToString (GetValue recreated ["deploymentConfig"; "strategy"]) = "Recreate"
  ∧ GetValue (setStrategy recreated) ["deploymentConfig"; "maxSurge"] = None
  ∧ GetValue (setStrategy recreated) ["deploymentConfig"; "minReadySeconds"]
    = Some (VNum 5).
Proof.
  split; [reflexivity|].
  destruct (setStrategy_Recreate_removes recreated eq_refl)
    as (Hsurge & _ & Hkept & _).
  split; [exact Hsurge|]. rewrite Hkept by done. vm_compute. reflexivity.
Defined.

Lemma setWorkloadSpecificDefaults_restartPolicy_witness :
  ToLower "CronJob" = "cronjob"
  ∧ setWorkloadSpecificDefaults "CronJob" batchJob !! "restartPolicy"
    = Some (VStr "OnFailure").
Proof.
  split; [reflexivity|].
  destruct (setWorkloadSpecificDefaults_restartPolicy "CronJob" batchJob)
    as (Hjob & _).
  rewrite Hjob by (right; reflexivity). vm_compute. reflexivity.
Defined.

Lemma setSelector_sets_selector_and_labels_witness :
  IsEmpty (labelled !! "selector") = true
  ∧ isJob "deployment" = false
  ∧ GetValue (setSelector "deployment" labelled) ["labels"; SelectorLabel]
    = Some (VStr "deployment")
  ∧ GetValue (setSelector "deployment" labelled) ["labels"; "tier"]
    = Some (VStr "front").
Proof.
  split; [reflexivity|]. split; [reflexivity|].
  destruct (setSelector_sets_selector_and_labels "deployment" labelled
              eq_refl eq_refl) as (_ & _ & Hlabel & Hkept & _).
  split; [exact Hlabel|].
  destruct (Hkept "tier") as [Htier _]; [done|].
  rewrite Htier. vm_compute. reflexivity.
Defined.


Lemma setState_then_getState_witness :
  annotationsWritable pinned
  ∧ jsonMarshal (∅ : gmap string string) = Some "{}"
  ∧ GetValue (setState pinned ∅) stateAnnotation = Some (VStr "{}").
Proof.
  assert (annotationsWritable pinned) as Hwritable by (left; reflexivity).
  split; [exact Hwritable|]. split; [reflexivity|].
  destruct (@setState_then_getState quietCollaborators pinned ∅ "{}"
              Hwritable eq_refl) as (Hstored & _).
  exact Hstored.
Defined.

Lemma setState_gives_up_witness :
  ¬ annotationsWritable blockedAnnotations
  ∧ setState blockedAnnotations ∅ = blockedAnnotations.
Proof.
  assert (¬ annotationsWritable blockedAnnotations) as Hblocked.
  { intros [Hnone | [annotations Hmap]].
    - vm_compute in Hnone. discriminate.
    - vm_compute in Hmap. discriminate. }
  split; [exact Hblocked|].
  apply setState_gives_up. right. exact Hblocked.
Defined.


Lemma setPorts_writes_names_only_witness :
  portField (setPorts "web" lateDuplicate).1 0 0 "protocol"
  = Some (VStr "TCP")
  ∧ (setPorts "web" lateDuplicate).1 !! "name" = Some (VStr "web").
Proof.
  destruct (setPorts_writes_names_only "web" lateDuplicate)
    as [Hfields Hkeys].
  split.
  - rewrite Hfields by done. vm_compute. reflexivity.
  - rewrite Hkeys by done. vm_compute. reflexivity.
Defined.



Lemma updatePasses_untouched_witness :
  (updatePasses "web" lateDuplicate).1 !! "name" = Some (VStr "web").
Proof.
  rewrite updatePasses_untouched; [vm_compute; reflexivity|].
  intros Hin.
  repeat (apply elem_of_cons in Hin as [Heq | Hin]; [discriminate Heq|]).
  by apply elem_of_nil in Hin.
Defined.

Lemma createPasses_untouched_witness :
  (createPasses "deployment" labelled).1 !! "name" = Some (VStr "web").
Proof.
  rewrite createPasses_untouched; [vm_compute; reflexivity|].
  intros Hin.
  repeat (apply elem_of_cons in Hin as [Heq | Hin]; [discriminate Heq|]).
  by apply elem_of_nil in Hin.
Defined.

Lemma createPasses_job_restartPolicy_witness :
  createPasses "job" batchJob = ((createPasses "job" batchJob).1, None)
  ∧ (createPasses "job" batchJob).1 !! "restartPolicy"
    = Some (VStr "OnFailure").
Proof.
  assert (createPasses "job" batchJob
          = ((createPasses "job" batchJob).1, None)) as Hrun
    by (vm_compute; reflexivity).
  split; [exact Hrun|].
  rewrite (createPasses_job_restartPolicy "job" batchJob _
             (or_introl eq_refl) Hrun).
  vm_compute. reflexivity.
Defined.


End more_runs.

Section busy_runs.
Local Existing Instance busyCollaborators.

Lemma getDomain_never_docker_io_witness :
  parseDomain "nginx" = Some "docker.io"
  ∧ getDomain "nginx" = "index.docker.io".
Proof.
  split; [reflexivity|].
  destruct (getDomain_never_docker_io "nginx") as (_ & Hdocker & _).
  exact (Hdocker eq_refl).
Defined.


(** With a credential for its registry, the image gets its secret. *)
Example setSecrets_privateImage :
  setSecrets privateImage !! "imagePullSecrets"
  = Some (VSecrets ["regcred"]).
Proof. vm_compute. reflexivity. Qed.

End busy_runs.
